(** * Meeting-Summarizer: transcript processing and job-state tracking

    A shallow embedding of [main.py] (the [SummaryProcessor], the background
    run, the submit and status endpoints) and of [DatabaseManager] (the
    [summary_processes] table and [_execute_transaction]), followed by the
    properties established about them. *)

From Stdlib Require Import ZArith NArith List String Ascii Bool Lia.
Import ListNotations.

Local Open Scope string_scope.
Local Open Scope Z_scope.

(** ** Python values *)

(** A transcript is a Python [str]: a sequence of Unicode code points. *)
Definition codepoint := N.
Definition unicode := list codepoint.

(** The code points for which [str.isspace] holds; these are the ones
    [str.strip()] removes when called without argument. *)
Definition py_isspace (c : codepoint) : bool :=
  (((9 <=? c) && (c <=? 13)) || ((28 <=? c) && (c <=? 32))
   || (c =? 133) || (c =? 160) || (c =? 5760)
   || ((8192 <=? c) && (c <=? 8202))
   || (c =? 8232) || (c =? 8233) || (c =? 8239) || (c =? 8287)
   || (c =? 12288))%N.

Fixpoint lstrip (s : unicode) : unicode :=
  match s with
  | [] => []
  | c :: s' => if py_isspace c then lstrip s' else s
  end.

Definition rstrip (s : unicode) : unicode := rev (lstrip (rev s)).

Definition strip (s : unicode) : unicode := rstrip (lstrip s).

(** Truth value of a sequence: empty is false. *)
Definition truthy {A : Type} (l : list A) : bool :=
  match l with
  | [] => false
  | _ :: _ => true
  end.

(** Truth value of an ASCII [str]. *)
Definition str_truthy (s : string) : bool :=
  match s with
  | EmptyString => false
  | String _ _ => true
  end.

(** A transcript written as an ASCII literal. *)
Definition unicode_of (s : string) : unicode :=
  map N_of_ascii (list_ascii_of_string s).

(** [a or b] on an optional string: [None] and [""] are false. *)
Definition py_or (a : option string) (b : string) : string :=
  match a with
  | Some s => if str_truthy s then s else b
  | None => b
  end.

(** ** Exceptions and the effect monad *)

(** Instances of Python's [Exception]: the two classes raised by the code
    itself, and any other class ([OtherError cls msg], where [msg] is what
    [str] gives for it). *)
Inductive exn : Type :=
| ValueError (msg : string)
| TypeError (msg : string)
| OtherError (cls msg : string).

(** [str(e)] *)
Definition str (e : exn) : string :=
  match e with
  | ValueError msg => msg
  | TypeError msg => msg
  | OtherError _ msg => msg
  end.

Inductive outcome (A : Type) : Type :=
| Return (a : A)
| Raise (e : exn).
Arguments Return {A} a.
Arguments Raise {A} e.

(** The request body of [/process-transcript]. [chunk_size] and [overlap]
    are [Optional[int]]: a client may send [null]. *)
Record TranscriptRequest : Type := {
  text : unicode;
  model : string;
  model_name : string;
  meeting_id : string;
  chunk_size : option Z;
  overlap : option Z;
  custom_prompt : option string
}.

(** The arguments of one call to [TranscriptProcessor.process_transcript]. *)
Record BackendCall : Type := {
  bc_text : unicode;
  bc_model : string;
  bc_model_name : string;
  bc_chunk_size : option Z;
  bc_overlap : option Z;
  bc_custom_prompt : string
}.

(** A row of the [summary_processes] table, restricted to the key and the
    columns that [main.py] reads or writes ([status TEXT NOT NULL],
    [error TEXT], [result TEXT]). *)
Record ProcessRow : Type := {
  row_meeting_id : string;
  row_status : string;
  row_error : option string;
  row_result : option string
}.

(** The write operations [main.py] invokes on the [DatabaseManager]. *)
Inductive DbWrite : Type :=
| CreateProcess (meeting : string)
| SaveTranscript (meeting : string) (txt : unicode) (mdl mdl_name : string)
    (size olap : option Z)
| UpdateProcess (process_id status : string) (result error : option string).

(** Everything the endpoints and the background run act upon. *)
Record World : Type := {
  summary_processes : list ProcessRow;
  background_tasks : list (string * TranscriptRequest);
  db_writes : list DbWrite;
  backend_calls : list BackendCall
}.

Definition empty_world : World :=
  {| summary_processes := []; background_tasks := [];
     db_writes := []; backend_calls := [] |}.

Definition set_rows (f : list ProcessRow -> list ProcessRow) (w : World) : World :=
  {| summary_processes := f (summary_processes w);
     background_tasks := background_tasks w;
     db_writes := db_writes w;
     backend_calls := backend_calls w |}.

Definition log_write (d : DbWrite) (w : World) : World :=
  {| summary_processes := summary_processes w;
     background_tasks := background_tasks w;
     db_writes := db_writes w ++ [d];
     backend_calls := backend_calls w |}.

Definition log_backend (c : BackendCall) (w : World) : World :=
  {| summary_processes := summary_processes w;
     background_tasks := background_tasks w;
     db_writes := db_writes w;
     backend_calls := backend_calls w ++ [c] |}.

Definition push_task (t : string * TranscriptRequest) (w : World) : World :=
  {| summary_processes := summary_processes w;
     background_tasks := background_tasks w ++ [t];
     db_writes := db_writes w;
     backend_calls := backend_calls w |}.

(** Computations over a state [S] that may raise. *)
Definition ST (S A : Type) : Type := S -> outcome A * S.

Definition ret {S A : Type} (a : A) : ST S A := fun s => (Return a, s).

Definition raise {S A : Type} (e : exn) : ST S A := fun s => (Raise e, s).

Definition bind {S A B : Type} (m : ST S A) (k : A -> ST S B) : ST S B :=
  fun s =>
    match m s with
    | (Return a, s') => k a s'
    | (Raise e, s') => (Raise e, s')
    end.

(** [try: body / except Exception as e: handler e] *)
Definition try_except {S A : Type} (body : ST S A) (handler : exn -> ST S A)
    : ST S A :=
  fun s =>
    match body s with
    | (Return a, s') => (Return a, s')
    | (Raise e, s') => handler e s'
    end.

(** The computations of [main.py] read and write the world. *)
Definition M (A : Type) : Type := ST World A.

Declare Scope py_scope.
Delimit Scope py_scope with py.
Notation "x <- m ;; k" := (bind m (fun x => k))
  (at level 61, m at next level, right associativity) : py_scope.
Notation "m ;;; k" := (bind m (fun _ => k))
  (at level 61, right associativity) : py_scope.
Local Open Scope py_scope.

(** ** Comparisons and arithmetic on [Optional[int]] *)

Definition type_name (v : option Z) : string :=
  match v with
  | Some _ => "int"
  | None => "NoneType"
  end.

Definition not_supported (op : string) (a b : option Z) : exn :=
  TypeError ("'" ++ op ++ "' not supported between instances of '"
             ++ type_name a ++ "' and '" ++ type_name b ++ "'").

Definition py_le (a b : option Z) : M bool :=
  match a, b with
  | Some x, Some y => ret (x <=? y)
  | _, _ => raise (not_supported "<=" a b)
  end.

Definition py_lt (a b : option Z) : M bool :=
  match a, b with
  | Some x, Some y => ret (x <? y)
  | _, _ => raise (not_supported "<" a b)
  end.

Definition py_ge (a b : option Z) : M bool :=
  match a, b with
  | Some x, Some y => ret (x >=? y)
  | _, _ => raise (not_supported ">=" a b)
  end.

Definition py_sub (a b : option Z) : M (option Z) :=
  match a, b with
  | Some x, Some y => ret (Some (x - y))
  | _, _ =>
      raise (TypeError ("unsupported operand type(s) for -: '"
                        ++ type_name a ++ "' and '" ++ type_name b ++ "'"))
  end.

(** [a or b] when [b] is only evaluated if [a] is false. *)
Definition py_or_else (a b : M bool) : M bool :=
  x <- a ;; if x then ret true else b.

(** [str.lower()] on ASCII strings (identifiers, status names and messages
    are modelled as ASCII [str]). *)
Definition lower_ascii (c : ascii) : ascii :=
  let n := nat_of_ascii c in
  if ((65 <=? n) && (n <=? 90))%nat then ascii_of_nat (n + 32) else c.

Fixpoint lower (s : string) : string :=
  match s with
  | EmptyString => EmptyString
  | String c s' => String (lower_ascii c) (lower s')
  end.

(** A Python [dict] from column names to TEXT values ([None] is SQL NULL). *)
Definition pydict := list (string * option string).

Fixpoint dict_get (d : pydict) (k : string) : option (option string) :=
  match d with
  | [] => None
  | (k', v) :: d' => if (k' =? k)%string then Some v else dict_get d' k
  end.

(** ** The job store: [DatabaseManager] as used by [main.py] *)

Definition pending_row (meeting : string) : ProcessRow :=
  {| row_meeting_id := meeting; row_status := "pending";
     row_error := None; row_result := None |}.

Definition has_key (k : string) (r : ProcessRow) : bool :=
  (row_meeting_id r =? k)%string.

(** Replace the row holding the key of [r], or add [r] when there is none:
    [meeting_id] is the table's PRIMARY KEY. *)
Fixpoint upsert (r : ProcessRow) (rows : list ProcessRow) : list ProcessRow :=
  match rows with
  | [] => [r]
  | x :: rest =>
      if has_key (row_meeting_id r) x then r :: rest else x :: upsert r rest
  end.

(** The fields an [update] call passes overwrite the row's; the others stay. *)
Definition update_row (status : string) (result error : option string)
    (r : ProcessRow) : ProcessRow :=
  {| row_meeting_id := row_meeting_id r;
     row_status := status;
     row_error := match error with Some e => Some e | None => row_error r end;
     row_result := match result with Some x => Some x | None => row_result r end |}.

(** [UPDATE summary_processes SET ... WHERE meeting_id = ?] on one row. *)
Definition update_matching (process_id status : string)
    (result error : option string) (r : ProcessRow) : ProcessRow :=
  if has_key process_id r then update_row status result error r else r.

Definition row_dict (r : ProcessRow) : pydict :=
  [("meeting_id", Some (row_meeting_id r)); ("status", Some (row_status r));
   ("error", row_error r); ("result", row_result r)].

(** Modelled from the spec: [DatabaseManager.create_process] is defined
    outside [main.py] and the [DatabaseManager] excerpt. The store contract
    is [create(meeting_id) -> job_id], creating a Job record in [pending];
    a new run for the same meeting overwrites the prior job state of that
    meeting. The table [summary_processes] of [_legacy_init_db] has
    [meeting_id] as its only key column, so the identifier handed back is
    the meeting identifier. *)
Definition create_process (meeting : string) : M string :=
  fun w =>
    (Return meeting,
     log_write (CreateProcess meeting)
       (set_rows (upsert (pending_row meeting)) w)).

(** Modelled from the spec: [DatabaseManager.update_process] is defined
    outside [main.py] and the [DatabaseManager] excerpt. The store contract
    is [update(job_id, status, fields...)], atomic and last-writer-wins per
    call: the status and the given fields of the job's row are overwritten;
    without such a row nothing changes. *)
Definition update_process (process_id status : string)
    (result error : option string) : M unit :=
  fun w =>
    (Return tt,
     log_write (UpdateProcess process_id status result error)
       (set_rows (map (update_matching process_id status result error)) w)).

(** Modelled from the spec: [DatabaseManager.save_transcript] is defined
    outside [main.py] and the [DatabaseManager] excerpt, and the spec does
    not describe it; the call is recorded and leaves the job table alone. *)
Definition save_transcript (meeting : string) (txt : unicode)
    (mdl mdl_name : string) (size olap : option Z) : M unit :=
  fun w => (Return tt, log_write (SaveTranscript meeting txt mdl mdl_name size olap) w).

(** Modelled from the spec: [DatabaseManager.get_transcript_data] is
    defined outside [main.py] and the [DatabaseManager] excerpt. The store
    contract is [read(job_id) -> Job | NotFound], read-only: the job's row
    as a dict, or [None]. *)
Definition get_transcript_data (meeting : string) : M (option pydict) :=
  fun w =>
    (Return (option_map row_dict (find (has_key meeting) (summary_processes w))), w).

(** [BackgroundTasks.add_task]: the task is queued, to run after the response. *)
Definition add_task (process_id : string) (transcript : TranscriptRequest) : M unit :=
  fun w => (Return tt, push_task (process_id, transcript) w).

Definition lift {A : Type} (o : outcome A) : M A := fun w => (o, w).

(** ** [main.py] *)

(** What an endpoint hands to the framework: a response body, an
    [HTTPException], or any other exception that escapes the handler. *)
Inductive response (A : Type) : Type :=
| Respond (body : A)
| HTTPException (status_code : Z) (detail : string)
| Unhandled (e : exn).
Arguments Respond {A} body.
Arguments HTTPException {A} status_code detail.
Arguments Unhandled {A} e.

Record SubmitResponse : Type := {
  message : string;
  process_id : string
}.

Section Main.

(** The per-chunk structured data the transcript processor assembles, and
    the decoded JSON a status response carries. *)
Variable pyobj : Type.

(** [TranscriptProcessor.process_transcript] (chunking, per-chunk model
    invocation and assembly) is defined in another module: it is a
    parameter, returning [(num_chunks, all_json_data)] or raising. *)
Variable transcript_processor : BackendCall -> outcome (Z * list pyobj).

(** [json.dumps] and [json.loads]. *)
Variable json_dumps : list pyobj -> outcome string.
Variable json_loads : string -> outcome pyobj.

Record SummaryResponse : Type := {
  resp_status : string;
  resp_meeting_id : string;
  resp_data : option pyobj
}.

Definition call_transcript_processor (c : BackendCall) : M (Z * list pyobj) :=
  fun w => (transcript_processor c, log_backend c w).

(** [SummaryProcessor.process_transcript] *)
Definition process_transcript (text : unicode) (model model_name : string)
    (chunk_size overlap : option Z) (custom_prompt : option string)
    : M (Z * list pyobj) :=
  if negb (truthy (strip text)) then
    raise (ValueError "Transcript text is empty")
  else
    invalid <- py_or_else (py_le chunk_size (Some 0)) (py_lt overlap (Some 0)) ;;
    if invalid : bool then
      raise (ValueError "Invalid chunk_size or overlap")
    else
      too_wide <- py_ge overlap chunk_size ;;
      overlap <- (if too_wide : bool then py_sub chunk_size (Some 1)
                  else ret overlap) ;;
      r <- call_transcript_processor
             {| bc_text := text;
                bc_model := model;
                bc_model_name := model_name;
                bc_chunk_size := chunk_size;
                bc_overlap := overlap;
                bc_custom_prompt :=
                  py_or custom_prompt
                    "Generate a summary of the meeting transcript." |} ;;
      ret (fst r, snd r).

(** [process_transcript_background] *)
Definition process_transcript_background (process_id : string)
    (transcript : TranscriptRequest) : M unit :=
  try_except
    (r <- process_transcript (text transcript) (model transcript)
            (model_name transcript) (chunk_size transcript)
            (overlap transcript) (custom_prompt transcript) ;;
     let all_json_data := snd r in
     if truthy all_json_data then
       dumped <- lift (json_dumps all_json_data) ;;
       update_process process_id "completed" (Some dumped) None
     else
       update_process process_id "failed" None (Some "No chunks processed"))
    (fun e => update_process process_id "failed" None (Some (str e))).

(** [process_transcript_api], the handler of [POST /process-transcript] *)
Definition process_transcript_api (transcript : TranscriptRequest)
    : M SubmitResponse :=
  process_id <- create_process (meeting_id transcript) ;;
  save_transcript (meeting_id transcript) (text transcript)
    (model transcript) (model_name transcript) (chunk_size transcript)
    (overlap transcript) ;;;
  add_task process_id transcript ;;;
  ret {| message := "Processing started"; process_id := process_id |}.

(** [get_summary], the handler of [GET /get-summary/{meeting_id}] *)
Definition get_summary (meeting_id : string)
    : World -> response SummaryResponse * World :=
  fun w =>
    match get_transcript_data meeting_id w with
    | (Raise e, w1) => (Unhandled e, w1)
    | (Return None, w1) => (HTTPException 404 "Meeting ID not found", w1)
    | (Return (Some result), w1) =>
        if negb (truthy result) then
          (HTTPException 404 "Meeting ID not found", w1)
        else
          match dict_get result "status" with
          | Some None =>
              (Unhandled (OtherError "AttributeError"
                            "'NoneType' object has no attribute 'lower'"), w1)
          | status_value =>
              let status :=
                lower (match status_value with
                       | Some (Some s) => s
                       | _ => "unknown"
                       end) in
              let stored :=
                match dict_get result "result" with
                | Some (Some s) => if str_truthy s then Some s else None
                | _ => None
                end in
              match stored with
              | None =>
                  (Respond {| resp_status := status;
                              resp_meeting_id := meeting_id;
                              resp_data := None |}, w1)
              | Some s =>
                  match json_loads s with
                  | Return data =>
                      (Respond {| resp_status := status;
                                  resp_meeting_id := meeting_id;
                                  resp_data := Some data |}, w1)
                  | Raise e => (Unhandled e, w1)
                  end
              end
          end
    end.

End Main.

(** ** [DatabaseManager._execute_transaction] *)

Section Transaction.

(** The contents of the database file, and a data statement with its
    parameters. *)
Variables DB Query : Type.

(** SQLite running one data statement on a copy of the database: the copy
    afterwards, and whether the statement raised. *)
Variable run : Query -> DB -> outcome unit * DB.

(** What [conn.execute] may be handed (one element of [queries]): a data
    statement, or one of the statements that start or end a transaction
    ([END] is [COMMIT]). *)
Inductive statement : Type :=
| Data (q : Query)
| BEGIN
| COMMIT
| ROLLBACK.

(** An open connection: what is committed to the file, and the working
    copy of the transaction in progress, if any. *)
Record Connection : Type := {
  committed : DB;
  txn : option DB
}.

Definition connect (db : DB) : Connection :=
  {| committed := db; txn := None |}.

(** [conn.execute("BEGIN")] *)
Definition conn_begin : ST Connection unit :=
  fun c =>
    match txn c with
    | Some _ =>
        (Raise (OtherError "OperationalError"
                  "cannot start a transaction within a transaction"), c)
    | None => (Return tt, {| committed := committed c; txn := Some (committed c) |})
    end.

(** [conn.execute("COMMIT")] and [conn.execute("ROLLBACK")]: as statements
    they end the open transaction, and fail when there is none. *)
Definition sql_commit : ST Connection unit :=
  fun c =>
    match txn c with
    | Some d => (Return tt, {| committed := d; txn := None |})
    | None =>
        (Raise (OtherError "OperationalError"
                  "cannot commit - no transaction is active"), c)
    end.

Definition sql_rollback : ST Connection unit :=
  fun c =>
    match txn c with
    | Some _ => (Return tt, {| committed := committed c; txn := None |})
    | None =>
        (Raise (OtherError "OperationalError"
                  "cannot rollback - no transaction is active"), c)
    end.

(** [conn.execute(query, params)]. A data statement inside a transaction
    acts on the working copy; outside, a statement that succeeds is
    committed at once. The other statements start or end the transaction. *)
Definition conn_execute (s : statement) : ST Connection unit :=
  match s with
  | Data q =>
      fun c =>
        match txn c with
        | Some d =>
            let (r, d') := run q d in
            (r, {| committed := committed c; txn := Some d' |})
        | None =>
            match run q (committed c) with
            | (Return u, d') => (Return u, {| committed := d'; txn := None |})
            | (Raise e, _) => (Raise e, c)
            end
        end
  | BEGIN => conn_begin
  | COMMIT => sql_commit
  | ROLLBACK => sql_rollback
  end.

(** [conn.commit()] *)
Definition conn_commit : ST Connection unit :=
  fun c =>
    (Return tt,
     {| committed := match txn c with Some d => d | None => committed c end;
        txn := None |}).

(** [conn.rollback()] *)
Definition conn_rollback : ST Connection unit :=
  fun c => (Return tt, {| committed := committed c; txn := None |}).

(** [conn.close()]: what is not committed is lost. *)
Definition conn_close (c : Connection) : DB := committed c.

(** [_get_connection]: connect, run the body of the [async with], close
    in the [finally]. *)
Definition _get_connection {A : Type} (body : ST Connection A) (db : DB)
    : outcome A * DB :=
  let (r, c) := body (connect db) in (r, conn_close c).

(** [for query, params in queries: await conn.execute(query, params)] *)
Fixpoint execute_each (queries : list statement) : ST Connection unit :=
  match queries with
  | [] => ret tt
  | q :: rest => conn_execute q ;;; execute_each rest
  end.

Definition _execute_transaction (queries : list statement)
    : DB -> outcome unit * DB :=
  _get_connection
    (try_except
       (conn_begin ;;; execute_each queries ;;; conn_commit)
       (fun e => conn_rollback ;;; raise e)).

(** The database after every data statement of a batch succeeded in turn. *)
Fixpoint all_succeed (queries : list Query) (d : DB) : option DB :=
  match queries with
  | [] => Some d
  | q :: rest =>
      match run q d with
      | (Return _, d') => all_succeed rest d'
      | (Raise _, _) => None
      end
  end.

End Transaction.

Arguments process_transcript {pyobj} transcript_processor text model model_name
  chunk_size overlap custom_prompt.
Arguments call_transcript_processor {pyobj} transcript_processor c.
Arguments process_transcript_background {pyobj} transcript_processor json_dumps
  process_id transcript.
Arguments get_summary {pyobj} json_loads meeting_id.
Arguments Build_SummaryResponse {pyobj} resp_status resp_meeting_id resp_data.
Arguments resp_status {pyobj} s.
Arguments resp_meeting_id {pyobj} s.
Arguments resp_data {pyobj} s.
Arguments Build_Connection {DB} committed txn.
Arguments committed {DB} c.
Arguments txn {DB} c.
Arguments connect {DB} db.
Arguments conn_begin {DB}.
Arguments Data {Query} q.
Arguments BEGIN {Query}.
Arguments COMMIT {Query}.
Arguments ROLLBACK {Query}.
Arguments sql_commit {DB}.
Arguments sql_rollback {DB}.
Arguments conn_execute {DB Query} run s.
Arguments conn_commit {DB}.
Arguments conn_rollback {DB}.
Arguments conn_close {DB} c.
Arguments _get_connection {DB A} body db.
Arguments execute_each {DB Query} run queries.
Arguments _execute_transaction {DB Query} run queries.
Arguments all_succeed {DB Query} run queries d.

(** ** The background run over a store that may fail *)

Section StoreFailures.

Variable pyobj : Type.
Variable transcript_processor : BackendCall -> outcome (Z * list pyobj).
Variable json_dumps : list pyobj -> outcome string.

(** [db.update_process] as any operation of the store: it may act on the
    world in any way, and it may raise (a persistence failure). *)
Variable db_update_process :
  string -> string -> option string -> option string -> M unit.

(** [process_transcript_background], its three [db.update_process] calls
    going to that operation. *)
Definition process_transcript_background_on (process_id : string)
    (transcript : TranscriptRequest) : M unit :=
  try_except
    (r <- process_transcript transcript_processor (text transcript)
            (model transcript) (model_name transcript) (chunk_size transcript)
            (overlap transcript) (custom_prompt transcript) ;;
     let all_json_data := snd r in
     if truthy all_json_data then
       dumped <- lift (json_dumps all_json_data) ;;
       db_update_process process_id "completed" (Some dumped) None
     else
       db_update_process process_id "failed" None (Some "No chunks processed"))
    (fun e => db_update_process process_id "failed" None (Some (str e))).

End StoreFailures.

Arguments process_transcript_background_on {pyobj} transcript_processor
  json_dumps db_update_process process_id transcript.

(** ** Vocabulary of the properties *)

(** A text that is empty or made of whitespace only. *)
Definition blank (s : unicode) : bool := forallb py_isspace s.

(** The call [process_transcript] makes to the transcript processor with
    chunk size [size] and overlap [olap]. *)
Definition backend_call (text : unicode) (model model_name : string)
    (size olap : Z) (custom_prompt : option string) : BackendCall :=
  {| bc_text := text;
     bc_model := model;
     bc_model_name := model_name;
     bc_chunk_size := Some size;
     bc_overlap := Some olap;
     bc_custom_prompt :=
       py_or custom_prompt "Generate a summary of the meeting transcript." |}.

(** How far the chunking window moves per chunk: [chunk_size - overlap]. *)
Definition window_advance (c : BackendCall) : option Z :=
  match bc_chunk_size c, bc_overlap c with
  | Some size, Some olap => Some (size - olap)
  | _, _ => None
  end.

(** The job rows of one meeting. *)
Definition rows_of (meeting : string) (w : World) : list ProcessRow :=
  filter (has_key meeting) (summary_processes w).

(** The job of one meeting, as the read path finds it. *)
Definition job_of (meeting : string) (w : World) : option ProcessRow :=
  find (has_key meeting) (summary_processes w).

(** No two rows share a [meeting_id] (the PRIMARY KEY constraint). *)
Fixpoint pk_unique (rows : list ProcessRow) : bool :=
  match rows with
  | [] => true
  | r :: rest => negb (existsb (has_key (row_meeting_id r)) rest) && pk_unique rest
  end.

(** The four states of the job lifecycle. *)
Definition job_states : list string :=
  ["pending"; "processing"; "completed"; "failed"].

Definition is_job_state (s : string) : bool := existsb (String.eqb s) job_states.

(** A terminal update of job [process_id]: either [completed] carrying a
    result and no error, or [failed] carrying an error and no result. *)
Definition terminal_update (process_id : string) (d : DbWrite) : Prop :=
  match d with
  | UpdateProcess p status result error =>
      p = process_id /\
      ((status = "completed" /\ result <> None /\ error = None) \/
       (status = "failed" /\ result = None /\ error <> None))
  | _ => False
  end.

(** A submission that fails validation: blank text or a chunk size that is
    not positive. *)
Definition invalid_submission (t : TranscriptRequest) : bool :=
  blank (text t) ||
  match chunk_size t with
  | Some size => size <=? 0
  | None => false
  end.

(** The message of the validation error of an invalid submission. *)
Definition validation_message (t : TranscriptRequest) : string :=
  if blank (text t) then "Transcript text is empty"
  else "Invalid chunk_size or overlap".

(** ** Sample collaborators and inputs *)

(** A transcript processor that yields one chunk's data for any call, one
    that yields none, and one whose backend is down. *)
Definition one_chunk_processor (c : BackendCall) : outcome (Z * list string) :=
  Return (1, ["{summary}"]).

Definition no_chunk_processor (c : BackendCall) : outcome (Z * list string) :=
  Return (0, []).

Definition failing_processor (c : BackendCall) : outcome (Z * list string) :=
  Raise (OtherError "ConnectionError" "backend unreachable").

(** A codec on lists of strings standing in for [json]. *)
Definition sample_dumps (l : list string) : outcome string :=
  Return ("[" ++ String.concat ", " l ++ "]").

Definition sample_loads (s : string) : outcome string := Return s.

Definition sample_request (txt : string) (size olap : Z) : TranscriptRequest :=
  {| text := unicode_of txt;
     model := "ollama";
     model_name := "llama3";
     meeting_id := "meeting-1";
     chunk_size := Some size;
     overlap := Some olap;
     custom_prompt := None |}.

Definition sample_world : World :=
  {| summary_processes :=
       [ {| row_meeting_id := "meeting-0"; row_status := "failed";
            row_error := Some "No chunks processed"; row_result := None |};
         {| row_meeting_id := "meeting-1"; row_status := "completed";
            row_error := None; row_result := Some "[{summary}]" |} ];
     background_tasks := [];
     db_writes := [];
     backend_calls := [] |}.

(** A store that is down: every update raises and changes nothing. *)
Definition store_down (process_id status : string)
    (result error : option string) : M unit :=
  raise (OtherError "OperationalError" "database is locked").

(** A store that refuses the [completed] update and takes the others. *)
Definition store_refusing_completed (process_id status : string)
    (result error : option string) : M unit :=
  if (status =? "completed")%string then
    raise (OtherError "OperationalError" "database is locked")
  else update_process process_id status result error.

(** A database of integers: [Some n] inserts [n], [None] is a statement
    that violates a constraint. *)
Definition sample_run (q : option Z) (d : list Z) : outcome unit * list Z :=
  match q with
  | Some n => (Return tt, n :: d)
  | None => (Raise (OtherError "IntegrityError" "constraint failed"), d)
  end.

(** ** More of [main.py]: request defaults, the meeting list, cleanup *)

(** The defaults that [TranscriptRequest] declares. *)
Definition default_chunk_size : Z := 5000.
Definition default_overlap : Z := 1000.
Definition default_custom_prompt : string :=
  "Generate a summary of the meeting transcript.".

(** An optional field of a request body: absent (the default applies), or
    given, [null] being [None]. *)
Definition field_value {A : Type} (given : option (option A)) (default : A)
    : option A :=
  match given with
  | None => Some default
  | Some v => v
  end.

(** The [TranscriptRequest] built from a request body. *)
Definition request_of_body (text : unicode) (model model_name meeting_id : string)
    (chunk_size overlap : option (option Z))
    (custom_prompt : option (option string)) : TranscriptRequest :=
  {| text := text;
     model := model;
     model_name := model_name;
     meeting_id := meeting_id;
     chunk_size := field_value chunk_size default_chunk_size;
     overlap := field_value overlap default_overlap;
     custom_prompt := field_value custom_prompt default_custom_prompt |}.

(** [d[k]]: the value, or [KeyError], whose text is the quoted key. *)
Definition dict_item (d : pydict) (k : string) : outcome (option string) :=
  match dict_get d k with
  | Some v => Return v
  | None => Raise (OtherError "KeyError" ("'" ++ k ++ "'"))
  end.

(** [[{"id": m["id"], "title": m["title"]} for m in meetings]] *)
Fixpoint meeting_summaries (meetings : list pydict) : outcome (list pydict) :=
  match meetings with
  | [] => Return []
  | m :: rest =>
      match dict_item m "id" with
      | Raise e => Raise e
      | Return id =>
          match dict_item m "title" with
          | Raise e => Raise e
          | Return title =>
              match meeting_summaries rest with
              | Raise e => Raise e
              | Return items => Return ([("id", id); ("title", title)] :: items)
              end
          end
      end
  end.

Section Meetings.

(** The state behind the [DatabaseManager], and its [get_all_meetings],
    which is defined in another module. *)
Variable Store : Type.
Variable get_all_meetings : ST Store (list pydict).

(** [get_meetings], the handler of [GET /get-meetings] *)
Definition get_meetings : Store -> response (list pydict) * Store :=
  fun s =>
    match (meetings <- get_all_meetings ;;
           (fun s' => (meeting_summaries meetings, s'))) s with
    | (Return body, s') => (Respond body, s')
    | (Raise e, s') => (HTTPException 500 (str e), s')
    end.

End Meetings.

Arguments get_meetings {Store} get_all_meetings s.

(** Records of the module's logger. *)
Inductive log_level : Type := INFO | ERROR.

(** The [SummaryProcessor]: the resources its transcript processor holds,
    and what has been logged. *)
Record Processor (P : Type) : Type := {
  resources : P;
  logged : list (log_level * string)
}.
Arguments Build_Processor {P} resources logged.
Arguments resources {P} p.
Arguments logged {P} p.

Section Cleanup.

Variable P : Type.

(** [TranscriptProcessor.cleanup], defined in another module. *)
Variable transcript_processor_cleanup : P -> outcome unit * P.

Definition run_transcript_processor_cleanup : ST (Processor P) unit :=
  fun s =>
    let (r, p) := transcript_processor_cleanup (resources s) in
    (r, {| resources := p; logged := logged s |}).

Definition logger (level : log_level) (msg : string) : ST (Processor P) unit :=
  fun s =>
    (Return tt, {| resources := resources s; logged := logged s ++ [(level, msg)] |}).

(** [SummaryProcessor.cleanup] *)
Definition cleanup : ST (Processor P) unit :=
  try_except
    (run_transcript_processor_cleanup ;;; logger INFO "Resources cleaned up")
    (fun e => logger ERROR ("Cleanup error: " ++ str e)).

(** [shutdown_event] *)
Definition shutdown_event : ST (Processor P) unit := cleanup.

End Cleanup.

Arguments run_transcript_processor_cleanup {P} transcript_processor_cleanup s.
Arguments logger {P} level msg s.
Arguments cleanup {P} transcript_processor_cleanup s.
Arguments shutdown_event {P} transcript_processor_cleanup s.

(** ** [DatabaseManager._legacy_init_db] *)

Inductive col_constraint : Type :=
| PRIMARY_KEY
| NOT_NULL
| DEFAULT (value : string).

Record ColumnDef : Type := {
  col_name : string;
  col_type : string;
  col_constraints : list col_constraint
}.

(** [FOREIGN KEY(fk_column) REFERENCES fk_table(fk_ref)] *)
Record ForeignKey : Type := {
  fk_column : string;
  fk_table : string;
  fk_ref : string
}.

Record TableDef : Type := {
  tbl_name : string;
  tbl_columns : list ColumnDef;
  tbl_foreign_keys : list ForeignKey
}.

(** A table of the database file: its definition and its rows. *)
Record Table : Type := {
  tbl_def : TableDef;
  tbl_rows : list (list (option string))
}.

(** The database file as the list of its tables. The databases considered
    hold tables only: no index, view or trigger bears one of the names the
    statements below use. *)
Definition Database := list Table.

Definition column (name type : string) (constraints : list col_constraint)
    : ColumnDef :=
  {| col_name := name; col_type := type; col_constraints := constraints |}.

Definition references_meetings : ForeignKey :=
  {| fk_column := "meeting_id"; fk_table := "meetings"; fk_ref := "id" |}.

Definition meetings_table : TableDef :=
  {| tbl_name := "meetings";
     tbl_columns :=
       [column "id" "TEXT" [PRIMARY_KEY];
        column "title" "TEXT" [NOT_NULL];
        column "created_at" "TEXT" [NOT_NULL];
        column "updated_at" "TEXT" [NOT_NULL]];
     tbl_foreign_keys := [] |}.

Definition transcripts_table : TableDef :=
  {| tbl_name := "transcripts";
     tbl_columns :=
       [column "id" "TEXT" [PRIMARY_KEY];
        column "meeting_id" "TEXT" [NOT_NULL];
        column "transcript" "TEXT" [NOT_NULL];
        column "timestamp" "TEXT" [NOT_NULL];
        column "summary" "TEXT" [];
        column "action_items" "TEXT" [];
        column "key_points" "TEXT" []];
     tbl_foreign_keys := [references_meetings] |}.

Definition summary_processes_table : TableDef :=
  {| tbl_name := "summary_processes";
     tbl_columns :=
       [column "meeting_id" "TEXT" [PRIMARY_KEY];
        column "status" "TEXT" [NOT_NULL];
        column "created_at" "TEXT" [NOT_NULL];
        column "updated_at" "TEXT" [NOT_NULL];
        column "error" "TEXT" [];
        column "result" "TEXT" [];
        column "start_time" "TEXT" [];
        column "end_time" "TEXT" [];
        column "chunk_count" "INTEGER" [DEFAULT "0"];
        column "processing_time" "REAL" [DEFAULT "0.0"];
        column "metadata" "TEXT" []];
     tbl_foreign_keys := [references_meetings] |}.

Definition transcript_chunks_table : TableDef :=
  {| tbl_name := "transcript_chunks";
     tbl_columns :=
       [column "meeting_id" "TEXT" [PRIMARY_KEY];
        column "meeting_name" "TEXT" [];
        column "transcript_text" "TEXT" [NOT_NULL];
        column "model" "TEXT" [NOT_NULL];
        column "model_name" "TEXT" [NOT_NULL];
        column "chunk_size" "INTEGER" [];
        column "overlap" "INTEGER" [];
        column "created_at" "TEXT" [NOT_NULL]];
     tbl_foreign_keys := [references_meetings] |}.

Definition settings_table : TableDef :=
  {| tbl_name := "settings";
     tbl_columns :=
       [column "id" "TEXT" [PRIMARY_KEY];
        column "provider" "TEXT" [NOT_NULL];
        column "model" "TEXT" [NOT_NULL];
        column "whisperModel" "TEXT" [NOT_NULL];
        column "groqApiKey" "TEXT" [];
        column "openaiApiKey" "TEXT" [];
        column "anthropicApiKey" "TEXT" [];
        column "ollamaApiKey" "TEXT" []];
     tbl_foreign_keys := [] |}.

Definition transcript_settings_table : TableDef :=
  {| tbl_name := "transcript_settings";
     tbl_columns :=
       [column "id" "TEXT" [PRIMARY_KEY];
        column "provider" "TEXT" [NOT_NULL];
        column "model" "TEXT" [NOT_NULL];
        column "whisperApiKey" "TEXT" [];
        column "deepgramApiKey" "TEXT" [];
        column "elevenLabsApiKey" "TEXT" [];
        column "groqApiKey" "TEXT" [];
        column "openaiApiKey" "TEXT" []];
     tbl_foreign_keys := [] |}.

(** The six [CREATE TABLE IF NOT EXISTS] statements, in the order run. *)
Definition legacy_tables : list TableDef :=
  [meetings_table; transcripts_table; summary_processes_table;
   transcript_chunks_table; settings_table; transcript_settings_table].

(** SQLite compares table names without regard to ASCII case. *)
Definition same_name (a b : string) : bool := (lower a =? lower b)%string.

Definition table_exists (name : string) (db : Database) : bool :=
  existsb (fun t => same_name (tbl_name (tbl_def t)) name) db.

(** [CREATE TABLE IF NOT EXISTS]: nothing happens when a table of that
    name exists, else an empty table is added. *)
Definition create_table_if_not_exists (d : TableDef) (db : Database) : Database :=
  if table_exists (tbl_name d) db then db
  else (db ++ [{| tbl_def := d; tbl_rows := [] |}])%list.

(** [cursor.execute] of such a statement. *)
Definition run_create (d : TableDef) (db : Database) : outcome unit * Database :=
  (Return tt, create_table_if_not_exists d db).

(** [_legacy_init_db]: the six statements on a fresh connection, then
    [conn.commit()]. *)
Definition _legacy_init_db (db : Database) : outcome unit * Database :=
  let (r, conn) :=
    (execute_each run_create (map Data legacy_tables) ;;; conn_commit)
      (connect db) in
  (r, committed conn).

(** ** Vocabulary of the further properties *)

(** A call the transcript processor can chunk: non-blank text, a non-empty
    prompt, and [0 <= overlap < chunk_size]. *)
Definition valid_call (c : BackendCall) : bool :=
  negb (blank (bc_text c)) && str_truthy (bc_custom_prompt c) &&
  match bc_chunk_size c, bc_overlap c with
  | Some size, Some olap => (0 <=? olap) && (olap <? size)
  | _, _ => false
  end.

(** A meeting record that has both keys the listing reads. *)
Definition listable (m : pydict) : bool :=
  match dict_get m "id", dict_get m "title" with
  | Some _, Some _ => true
  | _, _ => false
  end.

(** The two entries the listing keeps of a meeting record. *)
Definition listed (m : pydict) : pydict :=
  [("id", match dict_get m "id" with Some v => v | None => None end);
   ("title", match dict_get m "title" with Some v => v | None => None end)].

(** The tables a list of [CREATE TABLE IF NOT EXISTS] statements leaves. *)
Definition create_tables (defs : list TableDef) (db : Database) : Database :=
  fold_left (fun acc d => create_table_if_not_exists d acc) defs db.

(** ** Further sample inputs *)

Definition sample_meetings : list pydict :=
  [[("id", Some "meeting-0"); ("title", Some "Kickoff"); ("created_at", Some "2024")];
   [("title", Some "Retro"); ("id", Some "meeting-1")]].

Definition sample_store_ok (s : nat) : outcome (list pydict) * nat :=
  (Return sample_meetings, s).

Definition sample_store_bad_row (s : nat) : outcome (list pydict) * nat :=
  (Return [[("id", Some "meeting-0"); ("title", Some "Kickoff")];
           [("id", Some "meeting-1")]], s).

(** A database that already has a table named MEETINGS, with one row and
    another column layout. *)
Definition sample_database : Database :=
  [{| tbl_def := {| tbl_name := "MEETINGS";
                    tbl_columns := [column "id" "TEXT" [PRIMARY_KEY]];
                    tbl_foreign_keys := [] |};
      tbl_rows := [[Some "meeting-0"]] |}].

Definition sample_store_down (s : nat) : outcome (list pydict) * nat :=
  (Raise (OtherError "OperationalError" "database is locked"), s).

(** A decoder that accepts only texts that open a JSON array. *)
Definition strict_loads (s : string) : outcome string :=
  match s with
  | String "[" _ => Return s
  | _ => Raise (OtherError "JSONDecodeError"
                  "Expecting value: line 1 column 1 (char 0)")
  end.

(** Jobs whose status is stored in capitals, one with an empty result and
    one with a result that is no JSON. *)
Definition capitals_world : World :=
  {| summary_processes :=
       [ {| row_meeting_id := "meeting-2"; row_status := "PENDING";
            row_error := None; row_result := Some "" |};
         {| row_meeting_id := "meeting-3"; row_status := "Completed";
            row_error := None; row_result := Some "oops" |} ];
     background_tasks := [];
     db_writes := [];
     backend_calls := [] |}.

(** ** Stripping whitespace *)

Lemma lstrip_blank (s : unicode) : blank s = true -> lstrip s = [].
Proof.
  induction s as [|c s IH]; simpl; [reflexivity|].
  intros H. apply andb_true_iff in H as [Hc Hs].
  rewrite Hc. exact (IH Hs).
Qed.

Lemma lstrip_not_blank (s : unicode) :
  blank s = false -> truthy (lstrip s) = true /\ blank (lstrip s) = false.
Proof.
  induction s as [|c s IH]; simpl; [discriminate|].
  destruct (py_isspace c) eqn:Hc; simpl.
  - exact IH.
  - intros _. rewrite Hc. split; reflexivity.
Qed.

Lemma blank_rev (s : unicode) : blank (rev s) = blank s.
Proof.
  unfold blank. induction s as [|c s IH]; simpl; [reflexivity|].
  rewrite forallb_app, IH. simpl.
  rewrite andb_true_r. apply andb_comm.
Qed.

Lemma truthy_rev {A : Type} (l : list A) : truthy (rev l) = truthy l.
Proof.
  destruct l as [|a l]; simpl; [reflexivity|].
  destruct (rev l); reflexivity.
Qed.

Lemma strip_truthy (s : unicode) : truthy (strip s) = negb (blank s).
Proof.
  unfold strip, rstrip. rewrite truthy_rev.
  destruct (blank s) eqn:Hs; simpl.
  - rewrite (lstrip_blank s Hs). reflexivity.
  - destruct (lstrip_not_blank s Hs) as [_ Hb].
    rewrite <- blank_rev in Hb.
    exact (proj1 (lstrip_not_blank _ Hb)).
Qed.

(** ** [SummaryProcessor.process_transcript] *)

Section ProcessorFacts.

Variable pyobj : Type.
Variable transcript_processor : BackendCall -> outcome (Z * list pyobj).

Lemma process_transcript_blank text model model_name size olap prompt w :
  blank text = true ->
  process_transcript transcript_processor text model model_name size olap prompt w
  = (Raise (ValueError "Transcript text is empty"), w).
Proof.
  intros Hb. unfold process_transcript.
  rewrite strip_truthy, Hb. reflexivity.
Qed.

Lemma process_transcript_ints text model model_name size olap prompt w :
  blank text = false ->
  process_transcript transcript_processor text model model_name
    (Some size) (Some olap) prompt w
  = if (size <=? 0) || (olap <? 0) then
      (Raise (ValueError "Invalid chunk_size or overlap"), w)
    else
      let c := backend_call text model model_name size
                 (if olap >=? size then size - 1 else olap) prompt in
      (transcript_processor c, log_backend c w).
Proof.
  intros Hb. unfold process_transcript.
  rewrite strip_truthy, Hb. simpl.
  unfold bind, py_or_else, py_le, py_lt, py_ge, py_sub, ret, bind, raise.
  unfold call_transcript_processor, backend_call.
  destruct (size <=? 0); simpl; [reflexivity|].
  destruct (olap <? 0); simpl; [reflexivity|].
  destruct (olap >=? size); simpl;
    match goal with
    | |- context [transcript_processor ?c] =>
        destruct (transcript_processor c) as [[n data]|e]; reflexivity
    end.
Qed.

(** The method writes nothing to the store and queues nothing. *)
Lemma process_transcript_store text model model_name size olap prompt w :
  let w' := snd (process_transcript transcript_processor text model model_name
                   size olap prompt w) in
  summary_processes w' = summary_processes w /\
  db_writes w' = db_writes w /\
  background_tasks w' = background_tasks w.
Proof.
  unfold process_transcript.
  destruct (negb (truthy (strip text))); [simpl; auto|].
  unfold bind, py_or_else, py_le, py_lt, py_ge, py_sub, ret, bind, raise,
    call_transcript_processor.
  destruct size as [size|], olap as [olap|]; simpl; auto.
  - destruct (size <=? 0); simpl; auto.
    destruct (olap <? 0); simpl; auto.
    destruct (olap >=? size); simpl;
      match goal with
      | |- context [transcript_processor ?c] =>
          destruct (transcript_processor c) as [[n data]|e]; simpl; auto
      end.
  - destruct (size <=? 0); simpl; auto.
Qed.

(** C1. With non-blank text, [chunk_size > 0] and [overlap >= chunk_size],
    the call reaches the transcript processor with the overlap clamped to
    [chunk_size - 1], so the chunking window advances by 1 (at least 1)
    per chunk. *)
Theorem process_transcript_clamps_overlap
    text model model_name size olap prompt w :
  blank text = false -> 0 < size -> size <= olap ->
  let c := backend_call text model model_name size (size - 1) prompt in
  process_transcript transcript_processor text model model_name
    (Some size) (Some olap) prompt w
  = (transcript_processor c, log_backend c w) /\
  bc_overlap c = Some (size - 1) /\
  (exists advance, window_advance c = Some advance /\ 1 <= advance).
Proof.
  intros Hb Hsize Holap c. split; [|split].
  - rewrite process_transcript_ints by exact Hb.
    replace (size <=? 0) with false by (symmetry; apply Z.leb_gt; lia).
    replace (olap <? 0) with false by (symmetry; apply Z.ltb_ge; lia).
    replace (olap >=? size) with true
      by (symmetry; rewrite Z.geb_leb; apply Z.leb_le; lia).
    reflexivity.
  - reflexivity.
  - exists 1. split; [|lia].
    unfold window_advance, c, backend_call. simpl. f_equal. lia.
Qed.

(** C2. Empty or whitespace-only text makes the method raise
    [ValueError] with the world untouched (neither chunking nor the
    backend has been reached); text with a non-whitespace character and
    valid parameters passes validation: the call reaches the transcript
    processor and the outcome is the processor's. *)
Theorem process_transcript_rejects_blank_text :
  (forall text model model_name size olap prompt w,
      blank text = true ->
      process_transcript transcript_processor text model model_name
        size olap prompt w
      = (Raise (ValueError "Transcript text is empty"), w)) /\
  (forall text model model_name size olap prompt w,
      blank text = false -> 0 < size -> 0 <= olap ->
      exists c,
        bc_text c = text /\
        process_transcript transcript_processor text model model_name
          (Some size) (Some olap) prompt w
        = (transcript_processor c, log_backend c w)).
Proof.
  split.
  - intros. apply process_transcript_blank. assumption.
  - intros text model model_name size olap prompt w Hb Hsize Holap.
    rewrite process_transcript_ints by exact Hb.
    replace (size <=? 0) with false by (symmetry; apply Z.leb_gt; lia).
    replace (olap <? 0) with false by (symmetry; apply Z.ltb_ge; lia).
    simpl. eexists. split; [|reflexivity]. reflexivity.
Qed.

(** C4 (amended). With non-blank text, [chunk_size > 0] and [overlap < 0]
    the method raises [ValueError] and the transcript processor is not
    called: a negative overlap is rejected, not read as 0. *)
Theorem process_transcript_rejects_negative_overlap
    text model model_name size olap prompt w :
  blank text = false -> 0 < size -> olap < 0 ->
  process_transcript transcript_processor text model model_name
    (Some size) (Some olap) prompt w
  = (Raise (ValueError "Invalid chunk_size or overlap"), w).
Proof.
  intros Hb Hsize Holap.
  rewrite process_transcript_ints by exact Hb.
  replace (olap <? 0) with true by (symmetry; apply Z.ltb_lt; lia).
  rewrite orb_true_r. reflexivity.
Qed.

End ProcessorFacts.

(** ** The job table *)

Lemma has_key_true (k : string) (r : ProcessRow) :
  has_key k r = true <-> row_meeting_id r = k.
Proof. unfold has_key. apply String.eqb_eq. Qed.

Lemma has_key_false (k : string) (r : ProcessRow) :
  has_key k r = false <-> row_meeting_id r <> k.
Proof. unfold has_key. apply String.eqb_neq. Qed.

Lemma has_key_self (r : ProcessRow) : has_key (row_meeting_id r) r = true.
Proof. apply has_key_true. reflexivity. Qed.

Lemma has_key_other (k : string) (r x : ProcessRow) :
  k <> row_meeting_id r -> has_key (row_meeting_id r) x = true -> has_key k x = false.
Proof.
  intros Hk Hx. apply has_key_true in Hx. apply has_key_false. congruence.
Qed.

Lemma find_upsert_same (r : ProcessRow) (rows : list ProcessRow) :
  find (has_key (row_meeting_id r)) (upsert r rows) = Some r.
Proof.
  induction rows as [|x rest IH]; simpl.
  - rewrite has_key_self. reflexivity.
  - destruct (has_key (row_meeting_id r) x) eqn:Hx; simpl.
    + rewrite has_key_self. reflexivity.
    + rewrite Hx. exact IH.
Qed.

Lemma filter_upsert_other (k : string) (r : ProcessRow) (rows : list ProcessRow) :
  k <> row_meeting_id r ->
  filter (has_key k) (upsert r rows) = filter (has_key k) rows.
Proof.
  intros Hk.
  assert (Hr : has_key k r = false) by (apply has_key_false; congruence).
  induction rows as [|x rest IH]; simpl.
  - rewrite Hr. reflexivity.
  - destruct (has_key (row_meeting_id r) x) eqn:Hx; simpl.
    + rewrite Hr, (has_key_other k r x Hk Hx). reflexivity.
    + rewrite IH. reflexivity.
Qed.

Lemma existsb_upsert (k : string) (r : ProcessRow) (rows : list ProcessRow) :
  existsb (has_key k) (upsert r rows)
  = existsb (has_key k) rows || has_key k r.
Proof.
  induction rows as [|x rest IH]; simpl.
  - apply orb_comm.
  - destruct (has_key (row_meeting_id r) x) eqn:Hx; simpl.
    + apply has_key_true in Hx.
      assert (Hxr : has_key k x = has_key k r)
        by (unfold has_key; rewrite Hx; reflexivity).
      rewrite Hxr.
      destruct (has_key k r), (existsb (has_key k) rest); reflexivity.
    + rewrite IH. apply orb_assoc.
Qed.

Lemma filter_absent (k : string) (rows : list ProcessRow) :
  existsb (has_key k) rows = false -> filter (has_key k) rows = [].
Proof.
  induction rows as [|x rest IH]; simpl; [reflexivity|].
  intros H. apply orb_false_iff in H as [Hx Hrest].
  rewrite Hx. exact (IH Hrest).
Qed.

Lemma filter_upsert_same (r : ProcessRow) (rows : list ProcessRow) :
  pk_unique rows = true ->
  filter (has_key (row_meeting_id r)) (upsert r rows) = [r].
Proof.
  induction rows as [|x rest IH]; simpl.
  - intros _. rewrite has_key_self. reflexivity.
  - intros H. apply andb_true_iff in H as [Hfresh Hrest].
    apply negb_true_iff in Hfresh.
    destruct (has_key (row_meeting_id r) x) eqn:Hx; simpl.
    + rewrite has_key_self. f_equal.
      apply filter_absent.
      apply has_key_true in Hx. rewrite <- Hx. exact Hfresh.
    + rewrite Hx. exact (IH Hrest).
Qed.

Lemma pk_unique_upsert (r : ProcessRow) (rows : list ProcessRow) :
  pk_unique rows = true -> pk_unique (upsert r rows) = true.
Proof.
  induction rows as [|x rest IH]; simpl; [reflexivity|].
  intros H. apply andb_true_iff in H as [Hfresh Hrest].
  destruct (has_key (row_meeting_id r) x) eqn:Hx; simpl.
  - apply has_key_true in Hx. rewrite <- Hx, Hfresh, Hrest. reflexivity.
  - rewrite existsb_upsert, (IH Hrest).
    apply negb_true_iff in Hfresh. rewrite Hfresh. simpl.
    assert (Hr : has_key (row_meeting_id x) r = false).
    { apply has_key_false. apply has_key_false in Hx. congruence. }
    rewrite Hr. reflexivity.
Qed.

Lemma pk_unique_at_most_one (k : string) (rows : list ProcessRow) :
  pk_unique rows = true -> (List.length (filter (has_key k) rows) <= 1)%nat.
Proof.
  induction rows as [|x rest IH]; simpl; [lia|].
  intros H. apply andb_true_iff in H as [Hfresh Hrest].
  apply negb_true_iff in Hfresh.
  destruct (has_key k x) eqn:Hx; simpl.
  - apply has_key_true in Hx. rewrite Hx in Hfresh.
    rewrite (filter_absent k rest Hfresh). simpl. lia.
  - exact (IH Hrest).
Qed.

Section UpdateRows.

Variables (process_id status : string) (result error : option string).

Local Abbreviation upd := (update_matching process_id status result error).

Lemma has_key_upd (k : string) (r : ProcessRow) : has_key k (upd r) = has_key k r.
Proof. unfold update_matching. destruct (has_key process_id r); reflexivity. Qed.

Lemma existsb_map_update (k : string) (rows : list ProcessRow) :
  existsb (has_key k) (map upd rows) = existsb (has_key k) rows.
Proof.
  induction rows as [|x rest IH]; simpl; [reflexivity|].
  rewrite has_key_upd, IH. reflexivity.
Qed.

Lemma pk_unique_map_update (rows : list ProcessRow) :
  pk_unique (map upd rows) = pk_unique rows.
Proof.
  induction rows as [|x rest IH]; simpl; [reflexivity|].
  rewrite IH, existsb_map_update. f_equal. f_equal. f_equal.
  unfold update_matching. destruct (has_key process_id x); reflexivity.
Qed.

Lemma find_map_update (rows : list ProcessRow) :
  find (has_key process_id) (map upd rows)
  = option_map (update_row status result error)
      (find (has_key process_id) rows).
Proof.
  induction rows as [|x rest IH]; simpl; [reflexivity|].
  rewrite has_key_upd.
  destruct (has_key process_id x) eqn:Hx; simpl; [|exact IH].
  unfold update_matching. rewrite Hx. reflexivity.
Qed.

End UpdateRows.

Lemma job_of_update_process process_id status result error w :
  job_of process_id (snd (update_process process_id status result error w))
  = option_map (update_row status result error) (job_of process_id w).
Proof. unfold job_of. simpl. apply find_map_update. Qed.

Lemma db_writes_update_process process_id status result error w :
  db_writes (snd (update_process process_id status result error w))
  = (db_writes w ++ [UpdateProcess process_id status result error])%list.
Proof. reflexivity. Qed.

(** ** Submitting: [process_transcript_api] *)

Lemma process_transcript_api_eval (t : TranscriptRequest) (w : World) :
  process_transcript_api t w
  = (Return {| message := "Processing started"; process_id := meeting_id t |},
     push_task (meeting_id t, t)
       (log_write (SaveTranscript (meeting_id t) (text t) (model t)
                     (model_name t) (chunk_size t) (overlap t))
          (log_write (CreateProcess (meeting_id t))
             (set_rows (upsert (pending_row (meeting_id t))) w)))).
Proof. reflexivity. Qed.

(** C8. The job table holds at most one row per meeting identifier, and a
    new submission for a meeting replaces that meeting's row by a fresh
    [pending] one: afterwards the meeting has exactly one job row, the rows
    of the other meetings are as before, and no meeting has two. *)
Theorem one_job_per_meeting (t : TranscriptRequest) (w : World) :
  pk_unique (summary_processes w) = true ->
  let w' := snd (process_transcript_api t w) in
  pk_unique (summary_processes w') = true /\
  rows_of (meeting_id t) w' = [pending_row (meeting_id t)] /\
  (forall k, k <> meeting_id t -> rows_of k w' = rows_of k w) /\
  (forall k, (List.length (rows_of k w') <= 1)%nat).
Proof.
  intros Hpk w'. subst w'. rewrite process_transcript_api_eval.
  unfold rows_of. simpl.
  assert (Hpk' : pk_unique (upsert (pending_row (meeting_id t))
                              (summary_processes w)) = true)
    by (apply pk_unique_upsert; exact Hpk).
  split; [exact Hpk'|]. split; [|split].
  - exact (filter_upsert_same (pending_row (meeting_id t)) _ Hpk).
  - intros k Hk. apply filter_upsert_other. exact Hk.
  - intros k. apply pk_unique_at_most_one. exact Hpk'.
Qed.

(** ** The background run: [process_transcript_background] *)

Section BackgroundFacts.

Variable pyobj : Type.
Variable transcript_processor : BackendCall -> outcome (Z * list pyobj).
Variable json_dumps : list pyobj -> outcome string.

Local Abbreviation processing t :=
  (process_transcript transcript_processor (text t) (model t) (model_name t)
     (chunk_size t) (overlap t) (custom_prompt t)) (only parsing).

Local Abbreviation background :=
  (process_transcript_background transcript_processor json_dumps) (only parsing).

(** The run, by cases on what the processing step and [json.dumps] give. *)
Lemma background_eval process_id t w :
  background process_id t w
  = match processing t w with
    | (Return r, w1) =>
        if truthy (snd r) then
          match json_dumps (snd r) with
          | Return dumped =>
              update_process process_id "completed" (Some dumped) None w1
          | Raise e =>
              update_process process_id "failed" None (Some (str e)) w1
          end
        else
          update_process process_id "failed" None (Some "No chunks processed") w1
    | (Raise e, w1) =>
        update_process process_id "failed" None (Some (str e)) w1
    end.
Proof.
  unfold process_transcript_background, try_except, bind.
  destruct (processing t w) as [[r|e] w1]; [|reflexivity].
  destruct (truthy (snd r)); [|reflexivity].
  unfold lift. destruct (json_dumps (snd r)); reflexivity.
Qed.

Lemma processing_invalid t w :
  invalid_submission t = true ->
  processing t w = (Raise (ValueError (validation_message t)), w).
Proof.
  unfold invalid_submission, validation_message. intros H.
  destruct (blank (text t)) eqn:Hb.
  - apply process_transcript_blank. exact Hb.
  - simpl in H. destruct (chunk_size t) as [size|]; [|discriminate].
    unfold process_transcript. rewrite strip_truthy, Hb. simpl.
    unfold bind, py_or_else, bind, py_le, ret. rewrite H. reflexivity.
Qed.

(** A run neither adds nor removes job rows: the key constraint is kept. *)
Lemma background_keeps_pk_unique process_id t w :
  pk_unique (summary_processes (snd (background process_id t w)))
  = pk_unique (summary_processes w).
Proof.
  pose proof (process_transcript_store pyobj transcript_processor
                (text t) (model t) (model_name t) (chunk_size t) (overlap t)
                (custom_prompt t) w) as Hstore.
  rewrite background_eval.
  destruct (processing t w) as [[r|e] w1]; simpl in Hstore;
    destruct Hstore as [Hrows _];
    [destruct (truthy (snd r)); [destruct (json_dumps (snd r))|]|];
    simpl; rewrite pk_unique_map_update, Hrows; reflexivity.
Qed.

(** C5. When the processing step returns no chunk data, the run ends
    normally, its one store write is the update to [failed] with the error
    "No chunks processed", and the job's row then has status [failed]
    (not [completed]) and that non-empty error. *)
Theorem no_chunks_recorded_failed process_id t w num_chunks w1 :
  processing t w = (Return (num_chunks, []), w1) ->
  let w' := snd (background process_id t w) in
  fst (background process_id t w) = Return tt /\
  db_writes w'
  = (db_writes w
     ++ [UpdateProcess process_id "failed" None (Some "No chunks processed")])%list /\
  (forall r, job_of process_id w = Some r ->
     exists r' msg,
       job_of process_id w' = Some r' /\
       row_status r' = "failed" /\ row_status r' <> "completed" /\
       row_error r' = Some msg /\ msg <> "").
Proof.
  intros Hrun w'. subst w'.
  pose proof (process_transcript_store pyobj transcript_processor
                (text t) (model t) (model_name t) (chunk_size t) (overlap t)
                (custom_prompt t) w) as Hstore.
  rewrite background_eval, Hrun. rewrite Hrun in Hstore. simpl in Hstore.
  destruct Hstore as [Hrows [Hwrites _]].
  cbn [snd truthy fst update_process].
  split; [reflexivity|]. split.
  - cbn [db_writes log_write set_rows]. rewrite Hwrites. reflexivity.
  - intros r Hr.
    exists (update_row "failed" None (Some "No chunks processed") r),
      "No chunks processed".
    split; [|repeat split; discriminate].
    unfold job_of in *. cbn [summary_processes log_write set_rows].
    rewrite find_map_update, Hrows, Hr. reflexivity.
Qed.

(** C7. Every background run writes exactly one update to the store, for
    its own job, and that update is terminal and coherent: either status
    [completed] with a result and no error, or status [failed] with an
    error and no result. *)
Theorem terminal_updates_coherent process_id t w :
  exists u,
    db_writes (snd (background process_id t w)) = (db_writes w ++ [u])%list /\
    terminal_update process_id u.
Proof.
  pose proof (process_transcript_store pyobj transcript_processor
                (text t) (model t) (model_name t) (chunk_size t) (overlap t)
                (custom_prompt t) w) as Hstore.
  rewrite background_eval.
  destruct (processing t w) as [[r|e] w1]; simpl in Hstore;
    destruct Hstore as [_ [Hwrites _]].
  - destruct (truthy (snd r)).
    + destruct (json_dumps (snd r)) as [dumped|e].
      * exists (UpdateProcess process_id "completed" (Some dumped) None).
        rewrite db_writes_update_process, Hwrites.
        split; [reflexivity|]. simpl. split; [reflexivity|].
        left. repeat split. discriminate.
      * exists (UpdateProcess process_id "failed" None (Some (str e))).
        rewrite db_writes_update_process, Hwrites.
        split; [reflexivity|]. simpl. split; [reflexivity|].
        right. repeat split. discriminate.
    + exists (UpdateProcess process_id "failed" None (Some "No chunks processed")).
      rewrite db_writes_update_process, Hwrites.
      split; [reflexivity|]. simpl. split; [reflexivity|].
      right. repeat split. discriminate.
  - exists (UpdateProcess process_id "failed" None (Some (str e))).
    rewrite db_writes_update_process, Hwrites.
    split; [reflexivity|]. simpl. split; [reflexivity|].
    right. repeat split. discriminate.
Qed.

(** C3 (amended). The submit path validates nothing: also for blank text
    or a non-positive chunk size it answers "Processing started" with the
    process id, leaves a [pending] job row for the meeting and queues the
    run. The validation error arises in the background run, which ends
    normally, never reaches the transcript processor, and records the job
    as [failed] with the validation message. *)
Theorem submit_defers_validation (t : TranscriptRequest) (w : World) :
  invalid_submission t = true ->
  let w1 := snd (process_transcript_api t w) in
  let w2 := snd (background (meeting_id t) t w1) in
  fst (process_transcript_api t w)
  = Return {| message := "Processing started"; process_id := meeting_id t |} /\
  job_of (meeting_id t) w1 = Some (pending_row (meeting_id t)) /\
  background_tasks w1 = (background_tasks w ++ [(meeting_id t, t)])%list /\
  fst (background (meeting_id t) t w1) = Return tt /\
  job_of (meeting_id t) w2
  = Some {| row_meeting_id := meeting_id t; row_status := "failed";
            row_error := Some (validation_message t); row_result := None |} /\
  backend_calls w2 = backend_calls w.
Proof.
  intros Hinvalid w1 w2.
  assert (Hjob : job_of (meeting_id t) w1 = Some (pending_row (meeting_id t))).
  { subst w1. rewrite process_transcript_api_eval. unfold job_of. simpl.
    exact (find_upsert_same (pending_row (meeting_id t)) _). }
  assert (Hbg : background (meeting_id t) t w1
                = update_process (meeting_id t) "failed" None
                    (Some (validation_message t)) w1).
  { rewrite background_eval, (processing_invalid t w1 Hinvalid). reflexivity. }
  split; [reflexivity|]. split; [exact Hjob|]. split; [reflexivity|].
  subst w2. rewrite Hbg. split; [reflexivity|]. split.
  - rewrite job_of_update_process, Hjob. reflexivity.
  - reflexivity.
Qed.

End BackgroundFacts.

(** ** The background run when the store may fail *)

Section StoreFailureFacts.

Variable pyobj : Type.
Variable transcript_processor : BackendCall -> outcome (Z * list pyobj).
Variable json_dumps : list pyobj -> outcome string.
Variable db_update_process :
  string -> string -> option string -> option string -> M unit.

Local Abbreviation processing t :=
  (process_transcript transcript_processor (text t) (model t) (model_name t)
     (chunk_size t) (overlap t) (custom_prompt t)) (only parsing).

Local Abbreviation background_on :=
  (process_transcript_background_on transcript_processor json_dumps
     db_update_process) (only parsing).

Local Abbreviation report process_id e :=
  (db_update_process process_id "failed" None (Some (str e))) (only parsing).

(** With the store of the spec the general run is the run studied above. *)
Lemma background_on_update_process process_id t :
  process_transcript_background_on transcript_processor json_dumps
    update_process process_id t
  = process_transcript_background transcript_processor json_dumps process_id t.
Proof. reflexivity. Qed.

(** The run, by cases on what each of its steps gives. *)
Lemma background_on_eval process_id t w :
  background_on process_id t w
  = match processing t w with
    | (Return r, w1) =>
        if truthy (snd r) then
          match json_dumps (snd r) with
          | Return dumped =>
              match db_update_process process_id "completed" (Some dumped) None w1 with
              | (Return u, w2) => (Return u, w2)
              | (Raise e, w2) => report process_id e w2
              end
          | Raise e => report process_id e w1
          end
        else
          match db_update_process process_id "failed" None
                  (Some "No chunks processed") w1 with
          | (Return u, w2) => (Return u, w2)
          | (Raise e, w2) => report process_id e w2
          end
    | (Raise e, w1) => report process_id e w1
    end.
Proof.
  unfold process_transcript_background_on, try_except, bind.
  destruct (processing t w) as [[r|e] w1]; [|reflexivity].
  destruct (truthy (snd r)).
  - unfold lift. destruct (json_dumps (snd r)) as [dumped|e]; [|reflexivity].
    destruct (db_update_process process_id "completed" (Some dumped) None w1)
      as [[u|e] w2]; reflexivity.
  - destruct (db_update_process process_id "failed" None
                (Some "No chunks processed") w1) as [[u|e] w2]; reflexivity.
Qed.

(** C6 (amended). Every exception raised inside the try block of the
    background run, be it by the processing step (validation or the
    transcript processor), by [json.dumps], or by the store update made
    there, is caught and reported: the run goes on with
    [update_process(process_id, status="failed", error=str(e))] and ends as
    that call ends, so it returns normally when the call returns. The only
    exception that leaves the run is one raised by that reporting call
    itself. *)
Theorem background_run_reports_exceptions process_id t w :
  (forall e w1,
      (processing t w = (Raise e, w1) \/
       (exists r, processing t w = (Return r, w1) /\ truthy (snd r) = true /\
                  json_dumps (snd r) = Raise e) \/
       (exists r w0 dumped,
           processing t w = (Return r, w0) /\ truthy (snd r) = true /\
           json_dumps (snd r) = Return dumped /\
           db_update_process process_id "completed" (Some dumped) None w0
           = (Raise e, w1)) \/
       (exists r w0,
           processing t w = (Return r, w0) /\ truthy (snd r) = false /\
           db_update_process process_id "failed" None
             (Some "No chunks processed") w0 = (Raise e, w1))) ->
      background_on process_id t w = report process_id e w1) /\
  (forall e' w',
      background_on process_id t w = (Raise e', w') ->
      exists e w1, report process_id e w1 = (Raise e', w')).
Proof.
  rewrite background_on_eval. split.
  - intros e w1 [H | [[r [H [Hdata Hdump]]] | [H | H]]].
    + rewrite H. reflexivity.
    + rewrite H, Hdata, Hdump. reflexivity.
    + destruct H as (r & w0 & dumped & H & Hdata & Hdump & Hupd).
      rewrite H, Hdata, Hdump, Hupd. reflexivity.
    + destruct H as (r & w0 & H & Hdata & Hupd).
      rewrite H, Hdata, Hupd. reflexivity.
  - intros e' w'.
    destruct (processing t w) as [[r|e] w1]; [|intros H; exists e, w1; exact H].
    destruct (truthy (snd r)).
    + destruct (json_dumps (snd r)) as [dumped|e];
        [|intros H; exists e, w1; exact H].
      destruct (db_update_process process_id "completed" (Some dumped) None w1)
        as [[u|e] w2]; [discriminate | intros H; exists e, w2; exact H].
    + destruct (db_update_process process_id "failed" None
                  (Some "No chunks processed") w1) as [[u|e] w2];
        [discriminate | intros H; exists e, w2; exact H].
Qed.

(** X6. When the processing step returns chunk data and [json.dumps]
    succeeds, the run calls the store with status [completed], the dumped
    data as result and no error, whatever the chunk count reported. If that
    call returns, the run ends normally there. If it raises, the run goes
    on to report that exception with an update to [failed]. *)
Theorem completed_update_then_fallback process_id t w num_chunks data w1 dumped :
  processing t w = (Return (num_chunks, data), w1) ->
  truthy data = true ->
  json_dumps data = Return dumped ->
  (forall w2,
      db_update_process process_id "completed" (Some dumped) None w1
      = (Return tt, w2) ->
      background_on process_id t w = (Return tt, w2)) /\
  (forall e w2,
      db_update_process process_id "completed" (Some dumped) None w1
      = (Raise e, w2) ->
      background_on process_id t w = report process_id e w2).
Proof.
  intros Hrun Hdata Hdump. rewrite background_on_eval, Hrun. cbn [snd].
  rewrite Hdata, Hdump.
  split; intros; match goal with H : _ = _ |- _ => rewrite H end; reflexivity.
Qed.

End StoreFailureFacts.

(** ** The status read path: [get_summary] *)

Lemma lower_job_state (s : string) : is_job_state s = true -> lower s = s.
Proof.
  unfold is_job_state, job_states. simpl. intros H.
  repeat (apply orb_true_iff in H as [H|H];
          [apply String.eqb_eq in H; subst s; reflexivity|]).
  discriminate.
Qed.

Section StatusFacts.

Variable pyobj : Type.
Variable json_loads : string -> outcome pyobj.

(** The handler on a meeting that has a job row. *)
Lemma get_summary_found meeting w r :
  job_of meeting w = Some r ->
  get_summary json_loads meeting w
  = match row_result r with
    | Some (String c s) =>
        match json_loads (String c s) with
        | Return data =>
            (Respond {| resp_status := lower (row_status r);
                        resp_meeting_id := meeting;
                        resp_data := Some data |}, w)
        | Raise e => (Unhandled e, w)
        end
    | _ =>
        (Respond {| resp_status := lower (row_status r);
                    resp_meeting_id := meeting;
                    resp_data := None |}, w)
    end.
Proof.
  unfold job_of, get_summary, get_transcript_data. intros Hr. rewrite Hr.
  simpl. destruct (row_result r) as [[|c s]|]; reflexivity.
Qed.


End StatusFacts.

(** ** Transactions: [_execute_transaction] *)

Section TransactionFacts.

Variables DB Query : Type.
Variable run : Query -> DB -> outcome unit * DB.

Lemma execute_each_all_succeed queries file d d' :
  all_succeed run queries d = Some d' ->
  execute_each run (map Data queries) {| committed := file; txn := Some d |}
  = (Return tt, {| committed := file; txn := Some d' |}).
Proof.
  revert d. induction queries as [|q rest IH]; simpl; intros d H.
  - injection H as ->. reflexivity.
  - unfold bind. simpl.
    destruct (run q d) as [[u|e] d1]; [|discriminate].
    exact (IH d1 H).
Qed.

Lemma execute_each_raises before q after file d d1 e d2 :
  all_succeed run before d = Some d1 ->
  run q d1 = (Raise e, d2) ->
  execute_each run (map Data before ++ Data q :: after)
    {| committed := file; txn := Some d |}
  = (Raise e, {| committed := file; txn := Some d2 |}).
Proof.
  revert d. induction before as [|p rest IH]; simpl; intros d H Hq.
  - injection H as ->. unfold bind. simpl. rewrite Hq. reflexivity.
  - unfold bind. simpl.
    destruct (run p d) as [[u|e'] d']; [|discriminate].
    exact (IH d' H Hq).
Qed.


End TransactionFacts.

(** ** The properties on sample inputs *)

(** Overlap 9 with chunk size 5: the processor is called with overlap 4. *)
Lemma process_transcript_clamps_overlap_witness :
  blank (unicode_of "hello") = false /\ 0 < 5 /\ 5 <= 9 /\
  process_transcript one_chunk_processor (unicode_of "hello") "ollama" "llama3"
    (Some 5) (Some 9) None empty_world
  = (Return (1, ["{summary}"]),
     log_backend (backend_call (unicode_of "hello") "ollama" "llama3" 5 4 None)
       empty_world).
Proof.
  split; [reflexivity|]. split; [lia|]. split; [lia|].
  apply (process_transcript_clamps_overlap string one_chunk_processor
           (unicode_of "hello") "ollama" "llama3" 5 9 None empty_world);
    [reflexivity | lia | lia].
Defined.

(** A transcript of two spaces and a tab is rejected; "hello" is not. *)
Lemma process_transcript_rejects_blank_text_witness :
  (blank [32; 32; 9]%N = true /\
   process_transcript one_chunk_processor [32; 32; 9]%N "ollama" "llama3"
     (Some 5000) (Some 1000) None empty_world
   = (Raise (ValueError "Transcript text is empty"), empty_world)) /\
  (blank (unicode_of "hello") = false /\ 0 < 5000 /\ 0 <= 1000 /\
   exists c,
     bc_text c = unicode_of "hello" /\
     process_transcript one_chunk_processor (unicode_of "hello") "ollama" "llama3"
       (Some 5000) (Some 1000) None empty_world
     = (one_chunk_processor c, log_backend c empty_world)).
Proof.
  split.
  - split; [reflexivity|].
    apply (proj1 (process_transcript_rejects_blank_text string one_chunk_processor)).
    reflexivity.
  - split; [reflexivity|]. split; [lia|]. split; [lia|].
    apply (proj2 (process_transcript_rejects_blank_text string one_chunk_processor));
      [reflexivity | lia | lia].
Defined.

(** C3, counterexample. A submission with empty text is answered
    "Processing started" with a process id, no error reaches the submitter,
    and a job row exists afterwards where there was none. *)
Lemma submit_accepts_empty_text :
  let t := sample_request "" 5000 1000 in
  invalid_submission t = true /\
  job_of (meeting_id t) empty_world = None /\
  fst (process_transcript_api t empty_world)
  = Return {| message := "Processing started"; process_id := "meeting-1" |} /\
  (forall e, fst (process_transcript_api t empty_world) <> Raise e) /\
  job_of (meeting_id t) (snd (process_transcript_api t empty_world))
  = Some (pending_row "meeting-1").
Proof.
  simpl. repeat split; try reflexivity. intros e. discriminate.
Qed.

(** Chunk size 0: the job is created, and the run marks it [failed]. *)
Lemma submit_defers_validation_witness :
  let t := sample_request "hello" 0 1000 in
  let w1 := snd (process_transcript_api t empty_world) in
  invalid_submission t = true /\
  job_of "meeting-1" w1 = Some (pending_row "meeting-1") /\
  job_of "meeting-1"
    (snd (process_transcript_background one_chunk_processor sample_dumps
            "meeting-1" t w1))
  = Some {| row_meeting_id := "meeting-1"; row_status := "failed";
            row_error := Some "Invalid chunk_size or overlap";
            row_result := None |}.
Proof.
  intros t w1.
  pose proof (submit_defers_validation string one_chunk_processor sample_dumps
                t empty_world eq_refl) as H.
  split; [reflexivity|]. split; [apply H|]. apply H.
Defined.

(** C4, counterexample. With overlap -1 the call raises and the transcript
    processor is never reached, whereas with overlap 0 it is reached and
    its result returned: a negative overlap is not treated as 0. *)
Lemma negative_overlap_not_treated_as_zero :
  blank (unicode_of "hello") = false /\ 0 < 5000 /\ -1 < 0 /\
  process_transcript one_chunk_processor (unicode_of "hello") "ollama" "llama3"
    (Some 5000) (Some (-1)) None empty_world
  = (Raise (ValueError "Invalid chunk_size or overlap"), empty_world) /\
  process_transcript one_chunk_processor (unicode_of "hello") "ollama" "llama3"
    (Some 5000) (Some 0) None empty_world
  = (Return (1, ["{summary}"]),
     log_backend (backend_call (unicode_of "hello") "ollama" "llama3" 5000 0 None)
       empty_world) /\
  process_transcript one_chunk_processor (unicode_of "hello") "ollama" "llama3"
    (Some 5000) (Some (-1)) None empty_world
  <> process_transcript one_chunk_processor (unicode_of "hello") "ollama" "llama3"
       (Some 5000) (Some 0) None empty_world.
Proof.
  split; [reflexivity|]. split; [lia|]. split; [lia|].
  split; [reflexivity|]. split; [reflexivity|]. discriminate.
Qed.

Lemma process_transcript_rejects_negative_overlap_witness :
  blank (unicode_of "hello") = false /\ 0 < 5000 /\ -1 < 0 /\
  process_transcript failing_processor (unicode_of "hello") "ollama" "llama3"
    (Some 5000) (Some (-1)) None sample_world
  = (Raise (ValueError "Invalid chunk_size or overlap"), sample_world).
Proof.
  split; [reflexivity|]. split; [lia|]. split; [lia|].
  apply (process_transcript_rejects_negative_overlap string failing_processor);
    [reflexivity | lia | lia].
Defined.

(** A run whose processor yields no chunk data, on a submitted job. *)
Lemma no_chunks_recorded_failed_witness :
  let t := sample_request "hello" 5000 1000 in
  let w := snd (process_transcript_api t empty_world) in
  let w1 := log_backend (backend_call (text t) "ollama" "llama3" 5000 1000 None) w in
  process_transcript no_chunk_processor (text t) (model t) (model_name t)
    (chunk_size t) (overlap t) (custom_prompt t) w
  = (Return (0, []), w1) /\
  fst (process_transcript_background no_chunk_processor sample_dumps
         "meeting-1" t w) = Return tt /\
  db_writes (snd (process_transcript_background no_chunk_processor sample_dumps
                    "meeting-1" t w))
  = (db_writes w
     ++ [UpdateProcess "meeting-1" "failed" None (Some "No chunks processed")])%list.
Proof.
  intros t w w1.
  pose proof (no_chunks_recorded_failed string no_chunk_processor sample_dumps
                "meeting-1" t w 0 w1 eq_refl) as H.
  split; [reflexivity|]. split; apply H.
Defined.

(** Resubmitting a meeting whose job is [completed]. *)
Lemma one_job_per_meeting_witness :
  let t := sample_request "hello" 5000 1000 in
  pk_unique (summary_processes sample_world) = true /\
  rows_of "meeting-1" (snd (process_transcript_api t sample_world))
  = [pending_row "meeting-1"] /\
  (forall k,
      (List.length (rows_of k (snd (process_transcript_api t sample_world))) <= 1)%nat).
Proof.
  intros t.
  pose proof (one_job_per_meeting t sample_world eq_refl) as H.
  split; [reflexivity|]. split; apply H.
Defined.





(** ** Further properties of [SummaryProcessor.process_transcript] *)

Lemma py_or_truthy (a : option string) (b : string) :
  str_truthy b = true -> str_truthy (py_or a b) = true.
Proof.
  intros Hb. destruct a as [[|c s]|]; simpl; [exact Hb | reflexivity | exact Hb].
Qed.

Section ProcessorMore.

Variable pyobj : Type.
Variable transcript_processor : BackendCall -> outcome (Z * list pyobj).

(** The method by cases on its arguments. *)
Lemma process_transcript_eval text model model_name size olap prompt w :
  process_transcript transcript_processor text model model_name size olap prompt w
  = if blank text then (Raise (ValueError "Transcript text is empty"), w)
    else
      match size with
      | None => (Raise (not_supported "<=" None (Some 0)), w)
      | Some s =>
          if s <=? 0 then (Raise (ValueError "Invalid chunk_size or overlap"), w)
          else
            match olap with
            | None => (Raise (not_supported "<" None (Some 0)), w)
            | Some o =>
                if o <? 0 then
                  (Raise (ValueError "Invalid chunk_size or overlap"), w)
                else
                  let c := backend_call text model model_name s
                             (Z.min o (s - 1)) prompt in
                  (transcript_processor c, log_backend c w)
            end
      end.
Proof.
  destruct (blank text) eqn:Hb.
  { apply process_transcript_blank. exact Hb. }
  destruct size as [s|], olap as [o|].
  - rewrite process_transcript_ints by exact Hb.
    destruct (s <=? 0) eqn:Hs; simpl; [reflexivity|].
    destruct (o <? 0) eqn:Ho; simpl; [reflexivity|].
    apply Z.leb_gt in Hs. apply Z.ltb_ge in Ho. rewrite Z.geb_leb.
    destruct (Z.leb_spec s o).
    + rewrite Z.min_r by lia. reflexivity.
    + rewrite Z.min_l by lia. reflexivity.
  - unfold process_transcript. rewrite strip_truthy, Hb. simpl.
    unfold bind, py_or_else, bind, py_le, py_lt, ret, raise.
    destruct (s <=? 0); reflexivity.
  - unfold process_transcript. rewrite strip_truthy, Hb. reflexivity.
  - unfold process_transcript. rewrite strip_truthy, Hb. reflexivity.
Qed.

Lemma valid_backend_call text model model_name s o prompt :
  blank text = false -> (s <=? 0) = false -> (o <? 0) = false ->
  valid_call (backend_call text model model_name s (Z.min o (s - 1)) prompt) = true.
Proof.
  intros Hb Hs Ho. unfold valid_call, backend_call.
  cbn [bc_text bc_custom_prompt bc_chunk_size bc_overlap].
  rewrite Hb, py_or_truthy by reflexivity. simpl.
  apply Z.leb_gt in Hs. apply Z.ltb_ge in Ho.
  apply andb_true_iff. split; [apply Z.leb_le | apply Z.ltb_lt]; lia.
Qed.

(** X1. Whatever the arguments, also [None] for the sizes, the transcript
    processor is only ever handed a valid call: non-blank text, a non-empty
    prompt and [0 <= overlap < chunk_size]. Otherwise the method raises and
    leaves the world as it was. *)
Theorem processor_only_receives_valid_calls
    text model model_name size olap prompt w :
  (exists e,
      process_transcript transcript_processor text model model_name
        size olap prompt w = (Raise e, w)) \/
  (exists c,
      valid_call c = true /\
      process_transcript transcript_processor text model model_name
        size olap prompt w = (transcript_processor c, log_backend c w)).
Proof.
  rewrite process_transcript_eval.
  destruct (blank text) eqn:Hb; [left; eexists; reflexivity|].
  destruct size as [s|]; [|left; eexists; reflexivity].
  destruct (s <=? 0) eqn:Hs; [left; eexists; reflexivity|].
  destruct olap as [o|]; [|left; eexists; reflexivity].
  destruct (o <? 0) eqn:Ho; [left; eexists; reflexivity|].
  right. eexists. split; [|reflexivity].
  apply valid_backend_call; assumption.
Qed.

(** X2. With non-blank text, a positive chunk size and a non-negative
    overlap, the overlap that reaches the transcript processor is the
    smaller of [overlap] and [chunk_size - 1]: an overlap below the chunk
    size is passed on as given. *)
Theorem effective_overlap_is_min text model model_name size olap prompt w :
  blank text = false -> 0 < size -> 0 <= olap ->
  let c := backend_call text model model_name size (Z.min olap (size - 1)) prompt in
  process_transcript transcript_processor text model model_name
    (Some size) (Some olap) prompt w
  = (transcript_processor c, log_backend c w).
Proof.
  intros Hb Hsize Holap c. subst c.
  rewrite process_transcript_ints by exact Hb.
  replace (size <=? 0) with false by (symmetry; apply Z.leb_gt; lia).
  replace (olap <? 0) with false by (symmetry; apply Z.ltb_ge; lia).
  simpl. rewrite Z.geb_leb.
  destruct (Z.leb_spec size olap).
  - rewrite Z.min_r by lia. reflexivity.
  - rewrite Z.min_l by lia. reflexivity.
Qed.

(** X3. With non-blank text, a chunk size that is not positive raises
    [ValueError] whatever the overlap is, also when the overlap is [None]:
    the overlap is not looked at. *)
Theorem nonpositive_chunk_size_rejected text model model_name size olap prompt w :
  blank text = false -> size <= 0 ->
  process_transcript transcript_processor text model model_name
    (Some size) olap prompt w
  = (Raise (ValueError "Invalid chunk_size or overlap"), w).
Proof.
  intros Hb Hsize. unfold process_transcript. rewrite strip_truthy, Hb. simpl.
  unfold bind, py_or_else, bind, py_le, ret.
  replace (size <=? 0) with true by (symmetry; apply Z.leb_le; lia).
  reflexivity.
Qed.

(** X4. A request body that leaves out [chunk_size], [overlap] and
    [custom_prompt] takes the declared defaults, and these pass validation
    for every non-blank text: the transcript processor is called with chunk
    size 5000, overlap 1000 and the default prompt, a window advance of
    4000. *)
Theorem default_request_passes_validation txt mdl mdl_name meeting w :
  blank txt = false ->
  let t := request_of_body txt mdl mdl_name meeting None None None in
  let c := backend_call txt mdl mdl_name 5000 1000 None in
  process_transcript transcript_processor (text t) (model t)
    (model_name t) (chunk_size t) (overlap t) (custom_prompt t) w
  = (transcript_processor c, log_backend c w) /\
  bc_custom_prompt c = default_custom_prompt /\
  window_advance c = Some 4000.
Proof.
  intros Hb t c. subst t c. simpl.
  rewrite process_transcript_ints by exact Hb.
  split; [reflexivity|]. split; reflexivity.
Qed.

End ProcessorMore.

(** ** Further properties of the background run *)

Section BackgroundMore.

Variable pyobj : Type.
Variable transcript_processor : BackendCall -> outcome (Z * list pyobj).
Variable json_dumps : list pyobj -> outcome string.
Variable json_loads : string -> outcome pyobj.

Local Abbreviation processing t :=
  (process_transcript transcript_processor (text t) (model t) (model_name t)
     (chunk_size t) (overlap t) (custom_prompt t)) (only parsing).

Local Abbreviation background :=
  (process_transcript_background transcript_processor json_dumps) (only parsing).

(** X5. A request whose [chunk_size] is [null], or whose [chunk_size] is
    positive and whose [overlap] is [null], never reaches the transcript
    processor: the comparison raises [TypeError], and the run records the
    job as [failed] with the text of that error. *)
Theorem null_sizes_fail_the_job process_id t w :
  blank (text t) = false ->
  let w' := snd (background process_id t w) in
  (chunk_size t = None ->
   backend_calls w' = backend_calls w /\
   db_writes w'
   = (db_writes w
      ++ [UpdateProcess process_id "failed" None
            (Some "'<=' not supported between instances of 'NoneType' and 'int'")])%list) /\
  (forall size,
      chunk_size t = Some size -> 0 < size -> overlap t = None ->
      backend_calls w' = backend_calls w /\
      db_writes w'
      = (db_writes w
         ++ [UpdateProcess process_id "failed" None
               (Some "'<' not supported between instances of 'NoneType' and 'int'")])%list).
Proof.
  intros Hb w'. subst w'. rewrite background_eval.
  unfold process_transcript. rewrite strip_truthy, Hb. simpl.
  split.
  - intros Hsize. rewrite Hsize. simpl. split; reflexivity.
  - intros size Hsize Hpos Holap. rewrite Hsize, Holap.
    unfold bind, py_or_else, bind, py_le, py_lt, ret, raise.
    replace (size <=? 0) with false by (symmetry; apply Z.leb_gt; lia).
    simpl. split; reflexivity.
Qed.

Lemma data_recorded_completed_aux process_id t w num_chunks data w1 dumped :
  processing t w = (Return (num_chunks, data), w1) ->
  truthy data = true ->
  json_dumps data = Return dumped ->
  background process_id t w
  = update_process process_id "completed" (Some dumped) None w1 /\
  db_writes (snd (background process_id t w))
  = (db_writes w ++ [UpdateProcess process_id "completed" (Some dumped) None])%list /\
  job_of process_id (snd (background process_id t w))
  = option_map (update_row "completed" (Some dumped) None) (job_of process_id w).
Proof.
  intros Hrun Hdata Hdump.
  pose proof (process_transcript_store pyobj transcript_processor
                (text t) (model t) (model_name t) (chunk_size t) (overlap t)
                (custom_prompt t) w) as Hstore.
  rewrite Hrun in Hstore. simpl in Hstore. destruct Hstore as [Hrows [Hwrites _]].
  rewrite background_eval, Hrun. cbn [snd]. rewrite Hdata, Hdump.
  split; [reflexivity|].
  rewrite db_writes_update_process, job_of_update_process, Hwrites.
  unfold job_of. rewrite Hrows. split; reflexivity.
Qed.

(** X7. A background run calls the transcript processor at most once, and
    then with a valid call, and it never touches the queue of background
    tasks. *)
Theorem background_run_footprint process_id t w :
  let w' := snd (background process_id t w) in
  background_tasks w' = background_tasks w /\
  (backend_calls w' = backend_calls w \/
   exists c, valid_call c = true /\
             backend_calls w' = (backend_calls w ++ [c])%list).
Proof.
  intros w'. subst w'.
  rewrite background_eval, process_transcript_eval.
  destruct (blank (text t)) eqn:Hb; [split; [|left]; reflexivity|].
  destruct (chunk_size t) as [s|]; [|split; [|left]; reflexivity].
  destruct (s <=? 0) eqn:Hs; [split; [|left]; reflexivity|].
  destruct (overlap t) as [o|]; [|split; [|left]; reflexivity].
  destruct (o <? 0) eqn:Ho; [split; [|left]; reflexivity|].
  cbv zeta.
  pose proof (valid_backend_call (text t) (model t) (model_name t) s o
                (custom_prompt t) Hb Hs Ho) as Hc.
  set (c := backend_call (text t) (model t) (model_name t) s
              (Z.min o (s - 1)) (custom_prompt t)) in *.
  destruct (transcript_processor c) as [r|e];
    [destruct (truthy (snd r)); [destruct (json_dumps (snd r))|]|];
    (split; [reflexivity | right; exists c; split; [exact Hc | reflexivity]]).
Qed.


End BackgroundMore.

(** ** Further properties of the status read path *)

Lemma lower_ascii_idempotent (c : ascii) : lower_ascii (lower_ascii c) = lower_ascii c.
Proof. destruct c as [[] [] [] [] [] [] [] []]; reflexivity. Qed.

Lemma lower_idempotent (s : string) : lower (lower s) = lower s.
Proof.
  induction s as [|c s IH]; simpl; [reflexivity|].
  rewrite lower_ascii_idempotent, IH. reflexivity.
Qed.

Section StatusMore.

Variable pyobj : Type.
Variable json_loads : string -> outcome pyobj.

(** X9. For a meeting with a job row the status read path either answers
    with the stored status put in lower case, whatever its case in the
    store, or lets the decoding error of the stored result escape; the
    status it reports is in normal form (lowering it again changes
    nothing). *)
Theorem get_summary_reports_lower_case_status meeting w r :
  job_of meeting w = Some r ->
  ((exists data,
       get_summary json_loads meeting w
       = (Respond {| resp_status := lower (row_status r);
                     resp_meeting_id := meeting;
                     resp_data := data |}, w)) \/
   (exists e, get_summary json_loads meeting w = (Unhandled e, w))) /\
  lower (lower (row_status r)) = lower (row_status r).
Proof.
  intros Hjob. split; [|apply lower_idempotent].
  rewrite (get_summary_found pyobj json_loads meeting w r Hjob).
  destruct (row_result r) as [[|c s]|].
  - left. eexists. reflexivity.
  - destruct (json_loads (String c s)) as [data|e].
    + left. eexists. reflexivity.
    + right. eexists. reflexivity.
  - left. eexists. reflexivity.
Qed.

(** X10. A stored result that is the empty text counts as no result: the
    answer carries no data and [json.loads] is not consulted. A stored
    non-empty result that [json.loads] rejects makes the handler fail with
    that decoding error, not with 404, and the world is unchanged. *)
Theorem get_summary_unusable_result meeting w r :
  job_of meeting w = Some r ->
  (row_result r = Some "" ->
   get_summary json_loads meeting w
   = (Respond {| resp_status := lower (row_status r);
                 resp_meeting_id := meeting;
                 resp_data := None |}, w)) /\
  (forall stored e,
      row_result r = Some stored -> stored <> "" ->
      json_loads stored = Raise e ->
      get_summary json_loads meeting w = (Unhandled e, w)).
Proof.
  intros Hjob.
  rewrite (get_summary_found pyobj json_loads meeting w r Hjob).
  split.
  - intros Hres. rewrite Hres. reflexivity.
  - intros stored e Hres Hne Hload. rewrite Hres.
    destruct stored as [|c s]; [congruence|]. rewrite Hload. reflexivity.
Qed.

End StatusMore.

(** ** Further properties of [_execute_transaction] *)

Section TransactionMore.

Variables DB Query : Type.
Variable run : Query -> DB -> outcome unit * DB.

Lemma all_succeed_app (a b : list Query) (d : DB) :
  all_succeed run (a ++ b) d
  = match all_succeed run a d with
    | Some d1 => all_succeed run b d1
    | None => None
    end.
Proof.
  revert d. induction a as [|q a IH]; simpl; intros d; [reflexivity|].
  destruct (run q d) as [[u|e] d1]; [apply IH | reflexivity].
Qed.

Lemma all_succeed_none_split (queries : list Query) (d : DB) :
  all_succeed run queries d = None ->
  exists before q after d1 e d2,
    queries = (before ++ q :: after)%list /\
    all_succeed run before d = Some d1 /\
    run q d1 = (Raise e, d2).
Proof.
  revert d. induction queries as [|q rest IH]; simpl; intros d H; [discriminate|].
  destruct (run q d) as [[u|e] d1] eqn:Hq.
  - destruct (IH d1 H) as (before & q' & after & d1' & e & d2 & Heq & Hok & Hbad).
    exists (q :: before), q', after, d1', e, d2. simpl. rewrite Hq, Heq.
    repeat split; assumption.
  - exists [], q, rest, d, e, d1. repeat split. exact Hq.
Qed.

Lemma execute_transaction_cases (queries : list Query) (db : DB) :
  (exists db',
      all_succeed run queries db = Some db' /\
      _execute_transaction run (map Data queries) db = (Return tt, db')) \/
  (all_succeed run queries db = None /\
   exists e, _execute_transaction run (map Data queries) db = (Raise e, db)).
Proof.
  destruct (all_succeed run queries db) as [db'|] eqn:H.
  - left. exists db'. split; [reflexivity|].
    unfold _execute_transaction, _get_connection, try_except, bind,
      conn_begin, connect. simpl.
    rewrite (execute_each_all_succeed DB Query run queries db db db' H).
    reflexivity.
  - right. split; [reflexivity|].
    destruct (all_succeed_none_split queries db H)
      as (before & q & after & d1 & e & d2 & Heq & Hok & Hbad).
    exists e. subst queries. rewrite map_app. simpl.
    unfold _execute_transaction, _get_connection, try_except, bind,
      conn_begin, connect. simpl.
    rewrite (execute_each_raises DB Query run before q (map Data after)
               db db d1 e d2 Hok Hbad).
    reflexivity.
Qed.




End TransactionMore.

(** ** The meeting list: [get_meetings] *)

Lemma meeting_summaries_listable (meetings : list pydict) :
  forallb listable meetings = true ->
  meeting_summaries meetings = Return (map listed meetings).
Proof.
  induction meetings as [|m rest IH]; simpl; [reflexivity|].
  intros H. apply andb_true_iff in H as [Hm Hrest].
  unfold listable in Hm. unfold dict_item, listed.
  destruct (dict_get m "id") as [id|]; [|discriminate].
  destruct (dict_get m "title") as [title|]; [|discriminate].
  rewrite (IH Hrest). reflexivity.
Qed.

Lemma meeting_summaries_unlistable (meetings : list pydict) :
  forallb listable meetings = false ->
  meeting_summaries meetings = Raise (OtherError "KeyError" "'id'") \/
  meeting_summaries meetings = Raise (OtherError "KeyError" "'title'").
Proof.
  induction meetings as [|m rest IH]; simpl; [discriminate|].
  unfold listable at 1. unfold dict_item.
  destruct (dict_get m "id") as [id|]; [|left; reflexivity].
  destruct (dict_get m "title") as [title|]; [|right; reflexivity].
  simpl. intros Hrest.
  destruct (IH Hrest) as [H|H]; rewrite H; [left | right]; reflexivity.
Qed.

Section MeetingsFacts.

Variable Store : Type.
Variable get_all_meetings : ST Store (list pydict).

(** X13. The listing never lets an exception escape: it answers with a
    body or with HTTP 500, and the store is left as [get_all_meetings] left
    it. An exception of the store becomes HTTP 500 with the text of the
    exception as detail. *)
Theorem get_meetings_never_unhandled (s : Store) :
  ((exists body,
       get_meetings get_all_meetings s = (Respond body, snd (get_all_meetings s))) \/
   (exists detail,
       get_meetings get_all_meetings s
       = (HTTPException 500 detail, snd (get_all_meetings s)))) /\
  (forall e s',
      get_all_meetings s = (Raise e, s') ->
      get_meetings get_all_meetings s = (HTTPException 500 (str e), s')).
Proof.
  unfold get_meetings, bind. split.
  - destruct (get_all_meetings s) as [[meetings|e] s']; simpl.
    + destruct (meeting_summaries meetings) as [body|e].
      * left. eexists. reflexivity.
      * right. eexists. reflexivity.
    + right. eexists. reflexivity.
  - intros e s' H. rewrite H. reflexivity.
Qed.

(** X14. When every record the store returns has an [id] and a [title],
    the listing answers with one entry per record, in the store's order,
    each holding exactly the record's [id] and [title]: other columns are
    dropped. In particular no record gives the empty list. *)
Theorem get_meetings_lists_in_order (s s' : Store) (meetings : list pydict) :
  get_all_meetings s = (Return meetings, s') ->
  forallb listable meetings = true ->
  get_meetings get_all_meetings s = (Respond (map listed meetings), s') /\
  List.length (map listed meetings) = List.length meetings.
Proof.
  intros Hstore Hall. unfold get_meetings, bind. rewrite Hstore.
  rewrite (meeting_summaries_listable meetings Hall).
  split; [reflexivity | apply length_map].
Qed.

(** X15. One record without [id] or without [title] fails the whole
    listing: the answer is HTTP 500 whose detail is the quoted name of the
    missing key, and no entry of the other records is returned. *)
Theorem get_meetings_fails_on_incomplete_record (s s' : Store)
    (meetings : list pydict) :
  get_all_meetings s = (Return meetings, s') ->
  forallb listable meetings = false ->
  get_meetings get_all_meetings s = (HTTPException 500 "'id'", s') \/
  get_meetings get_all_meetings s = (HTTPException 500 "'title'", s').
Proof.
  intros Hstore Hbad. unfold get_meetings, bind. rewrite Hstore.
  destruct (meeting_summaries_unlistable meetings Hbad) as [H|H]; rewrite H;
    [left | right]; reflexivity.
Qed.

End MeetingsFacts.

(** ** [SummaryProcessor.cleanup] and [shutdown_event] *)

(** X16. Cleanup, and with it the shutdown handler, never raises: whether
    the transcript processor's cleanup returns or raises, the call ends
    normally, the resources are as that cleanup left them, and exactly one
    record is logged, at level INFO on success and at level ERROR, with the
    text of the exception, on failure. *)
Theorem cleanup_never_raises (P : Type)
    (transcript_processor_cleanup : P -> outcome unit * P) (s : Processor P) :
  let s' := snd (cleanup transcript_processor_cleanup s) in
  fst (cleanup transcript_processor_cleanup s) = Return tt /\
  shutdown_event transcript_processor_cleanup s
  = cleanup transcript_processor_cleanup s /\
  resources s' = snd (transcript_processor_cleanup (resources s)) /\
  logged s'
  = (logged s
     ++ [match fst (transcript_processor_cleanup (resources s)) with
         | Return _ => (INFO, "Resources cleaned up")
         | Raise e => (ERROR, ("Cleanup error: " ++ str e)%string)
         end])%list.
Proof.
  unfold shutdown_event, cleanup, try_except, bind,
    run_transcript_processor_cleanup, logger.
  destruct (transcript_processor_cleanup (resources s)) as [[u|e] p]; simpl;
    repeat split; reflexivity.
Qed.

(** ** [DatabaseManager._legacy_init_db] *)

Lemma same_name_refl (a : string) : same_name a a = true.
Proof. unfold same_name. apply String.eqb_refl. Qed.

Lemma table_exists_app (name : string) (a b : Database) :
  table_exists name (a ++ b)%list = table_exists name a || table_exists name b.
Proof. unfold table_exists. apply existsb_app. Qed.

Lemma create_table_keeps (name : string) (d : TableDef) (db : Database) :
  table_exists name db = true ->
  table_exists name (create_table_if_not_exists d db) = true.
Proof.
  intros H. unfold create_table_if_not_exists.
  destruct (table_exists (tbl_name d) db); [exact H|].
  rewrite table_exists_app, H. reflexivity.
Qed.

Lemma create_table_adds (d : TableDef) (db : Database) :
  table_exists (tbl_name d) (create_table_if_not_exists d db) = true.
Proof.
  unfold create_table_if_not_exists.
  destruct (table_exists (tbl_name d) db) eqn:H; [exact H|].
  rewrite table_exists_app. unfold table_exists at 2. simpl.
  rewrite same_name_refl. apply orb_true_r.
Qed.

Lemma create_tables_keeps (name : string) (defs : list TableDef) (db : Database) :
  table_exists name db = true ->
  table_exists name (create_tables defs db) = true.
Proof.
  unfold create_tables. revert db.
  induction defs as [|d rest IH]; simpl; intros db H; [exact H|].
  apply IH. apply create_table_keeps. exact H.
Qed.

Lemma create_tables_all (defs : list TableDef) (db : Database) :
  forallb (fun d => table_exists (tbl_name d) (create_tables defs db)) defs = true.
Proof.
  revert db. induction defs as [|d rest IH]; intros db; [reflexivity|].
  change (create_tables (d :: rest) db)
    with (create_tables rest (create_table_if_not_exists d db)).
  cbn [forallb]. rewrite IH, andb_true_r.
  apply create_tables_keeps. apply create_table_adds.
Qed.

Lemma create_tables_fixed (defs : list TableDef) (db : Database) :
  forallb (fun d => table_exists (tbl_name d) db) defs = true ->
  create_tables defs db = db.
Proof.
  unfold create_tables.
  induction defs as [|d rest IH]; simpl; intros H; [reflexivity|].
  apply andb_true_iff in H as [Hd Hrest].
  unfold create_table_if_not_exists at 2. rewrite Hd. exact (IH Hrest).
Qed.

Lemma create_tables_appends (defs : list TableDef) (db : Database) :
  exists added,
    create_tables defs db = (db ++ added)%list /\
    Forall (fun t => tbl_rows t = [] /\ In (tbl_def t) defs /\
                     table_exists (tbl_name (tbl_def t)) db = false) added.
Proof.
  revert db. induction defs as [|d rest IH]; intros db.
  - exists []. split; [symmetry; apply app_nil_r | constructor].
  - change (create_tables (d :: rest) db)
      with (create_tables rest (create_table_if_not_exists d db)).
    unfold create_table_if_not_exists.
    destruct (table_exists (tbl_name d) db) eqn:Hd.
    + destruct (IH db) as [added [Heq Hall]].
      exists added. split; [exact Heq|].
      eapply Forall_impl; [|exact Hall].
      intros t [Hrows [Hin Hnew]].
      repeat split; [exact Hrows | right; exact Hin | exact Hnew].
    + destruct (IH (db ++ [{| tbl_def := d; tbl_rows := [] |}])%list)
        as [added [Heq Hall]].
      exists ({| tbl_def := d; tbl_rows := [] |} :: added). split.
      * rewrite Heq, <- app_assoc. reflexivity.
      * constructor.
        -- simpl. repeat split; [left; reflexivity | exact Hd].
        -- eapply Forall_impl; [|exact Hall].
           intros t [Hrows [Hin Hnew]].
           rewrite table_exists_app in Hnew.
           apply orb_false_iff in Hnew as [Hnew _].
           repeat split; [exact Hrows | right; exact Hin | exact Hnew].
Qed.

Lemma execute_each_run_create (defs : list TableDef) (db : Database) :
  execute_each run_create (map Data defs) (connect db)
  = (Return tt, connect (create_tables defs db)).
Proof.
  unfold create_tables. revert db.
  induction defs as [|d rest IH]; intros db; [reflexivity|].
  simpl. unfold bind. simpl. exact (IH (create_table_if_not_exists d db)).
Qed.

Lemma legacy_init_db_eval (db : Database) :
  _legacy_init_db db = (Return tt, create_tables legacy_tables db).
Proof.
  unfold _legacy_init_db, bind. rewrite execute_each_run_create. reflexivity.
Qed.

(** X17. On a database that holds tables only (none of the six names is
    taken by an index or a view), after [_legacy_init_db] each of the six
    tables exists, whatever tables were there before. *)
Theorem legacy_init_db_creates_all_tables (db : Database) :
  forallb (fun d => table_exists (tbl_name d) (snd (_legacy_init_db db)))
    legacy_tables = true.
Proof.
  rewrite legacy_init_db_eval. cbn [snd]. apply create_tables_all.
Qed.

(** X18. [_legacy_init_db] only appends: the tables that were there stay
    where they are, definition and rows untouched, also a table that bears
    one of the six names with another column layout. Each table added is
    one of the six, has no rows, and had no namesake before. *)
Theorem legacy_init_db_keeps_existing_tables (db : Database) :
  exists added,
    snd (_legacy_init_db db) = (db ++ added)%list /\
    Forall (fun t => tbl_rows t = [] /\ In (tbl_def t) legacy_tables /\
                     table_exists (tbl_name (tbl_def t)) db = false) added.
Proof.
  rewrite legacy_init_db_eval. cbn [snd]. apply create_tables_appends.
Qed.

(** X19. [_legacy_init_db] is idempotent: run on a database it has already
    initialised, it changes nothing. *)
Theorem legacy_init_db_idempotent (db : Database) :
  snd (_legacy_init_db (snd (_legacy_init_db db))) = snd (_legacy_init_db db).
Proof.
  rewrite !legacy_init_db_eval. cbn [snd].
  apply create_tables_fixed. apply create_tables_all.
Qed.

(** ** The further properties on sample inputs *)

(** Overlap 3 below chunk size 5 is passed on; overlap 9 is cut to 4. *)
Lemma effective_overlap_is_min_witness :
  blank (unicode_of "hello") = false /\ 0 < 5 /\ 0 <= 3 /\
  process_transcript one_chunk_processor (unicode_of "hello") "ollama" "llama3"
    (Some 5) (Some 3) None empty_world
  = (Return (1, ["{summary}"]),
     log_backend (backend_call (unicode_of "hello") "ollama" "llama3" 5 3 None)
       empty_world).
Proof.
  split; [reflexivity|]. split; [lia|]. split; [lia|].
  apply (effective_overlap_is_min string one_chunk_processor
           (unicode_of "hello") "ollama" "llama3" 5 3 None empty_world);
    [reflexivity | lia | lia].
Defined.

Lemma nonpositive_chunk_size_rejected_witness :
  blank (unicode_of "hello") = false /\ 0 <= 0 /\
  process_transcript one_chunk_processor (unicode_of "hello") "ollama" "llama3"
    (Some 0) None None empty_world
  = (Raise (ValueError "Invalid chunk_size or overlap"), empty_world).
Proof.
  split; [reflexivity|]. split; [lia|].
  apply (nonpositive_chunk_size_rejected string one_chunk_processor);
    [reflexivity | lia].
Defined.

Lemma default_request_passes_validation_witness :
  blank (unicode_of "hello") = false /\
  window_advance (backend_call (unicode_of "hello") "ollama" "llama3" 5000 1000 None)
  = Some 4000.
Proof.
  split; [reflexivity|].
  apply (default_request_passes_validation string one_chunk_processor
           (unicode_of "hello") "ollama" "llama3" "meeting-1" empty_world).
  reflexivity.
Defined.

(** A body with [chunk_size: null], and one with [overlap: null]. *)
Lemma null_sizes_fail_the_job_witness :
  let t1 := request_of_body (unicode_of "hello") "ollama" "llama3" "meeting-1"
              (Some None) None None in
  let t2 := request_of_body (unicode_of "hello") "ollama" "llama3" "meeting-1"
              None (Some None) None in
  blank (text t1) = false /\ chunk_size t1 = None /\
  backend_calls
    (snd (process_transcript_background one_chunk_processor sample_dumps
            "meeting-1" t1 empty_world)) = [] /\
  chunk_size t2 = Some 5000 /\ 0 < 5000 /\ overlap t2 = None /\
  backend_calls
    (snd (process_transcript_background one_chunk_processor sample_dumps
            "meeting-1" t2 empty_world)) = [].
Proof.
  intros t1 t2.
  pose proof (null_sizes_fail_the_job string one_chunk_processor sample_dumps
                "meeting-1" t1 empty_world eq_refl) as [H1 _].
  pose proof (null_sizes_fail_the_job string one_chunk_processor sample_dumps
                "meeting-1" t2 empty_world eq_refl) as [_ H2].
  split; [reflexivity|]. split; [reflexivity|].
  split; [apply (H1 eq_refl)|].
  split; [reflexivity|]. split; [lia|]. split; [reflexivity|].
  apply (H2 5000 eq_refl); [lia | reflexivity].
Defined.


(** A status stored as "PENDING" is reported as "pending". *)
Lemma get_summary_reports_lower_case_status_witness :
  let r := {| row_meeting_id := "meeting-2"; row_status := "PENDING";
              row_error := None; row_result := Some "" |} in
  job_of "meeting-2" capitals_world = Some r /\
  ((exists data,
       get_summary strict_loads "meeting-2" capitals_world
       = (Respond {| resp_status := "pending";
                     resp_meeting_id := "meeting-2";
                     resp_data := data |}, capitals_world)) \/
   (exists e,
       get_summary strict_loads "meeting-2" capitals_world
       = (Unhandled e, capitals_world))).
Proof.
  intros r. split; [reflexivity|].
  exact (proj1 (get_summary_reports_lower_case_status string strict_loads
                  "meeting-2" capitals_world r eq_refl)).
Defined.

Lemma get_summary_unusable_result_witness :
  get_summary strict_loads "meeting-2" capitals_world
  = (Respond {| resp_status := "pending"; resp_meeting_id := "meeting-2";
                resp_data := None |}, capitals_world) /\
  "oops" <> "" /\
  strict_loads "oops"
  = Raise (OtherError "JSONDecodeError" "Expecting value: line 1 column 1 (char 0)") /\
  get_summary strict_loads "meeting-3" capitals_world
  = (Unhandled (OtherError "JSONDecodeError"
                  "Expecting value: line 1 column 1 (char 0)"), capitals_world).
Proof.
  assert (Hne : "oops" <> "") by discriminate.
  split.
  - apply (proj1 (get_summary_unusable_result string strict_loads
                    "meeting-2" capitals_world
                    {| row_meeting_id := "meeting-2"; row_status := "PENDING";
                       row_error := None; row_result := Some "" |} eq_refl)).
    reflexivity.
  - split; [exact Hne|]. split; [reflexivity|].
    apply (proj2 (get_summary_unusable_result string strict_loads
                    "meeting-3" capitals_world
                    {| row_meeting_id := "meeting-3"; row_status := "Completed";
                       row_error := None; row_result := Some "oops" |} eq_refl)
             "oops" _ eq_refl Hne eq_refl).
Defined.


Lemma get_meetings_never_unhandled_witness :
  sample_store_down 0%nat
  = (Raise (OtherError "OperationalError" "database is locked"), 0%nat) /\
  get_meetings sample_store_down 0%nat
  = (HTTPException 500 "database is locked", 0%nat).
Proof.
  split; [reflexivity|].
  apply (proj2 (get_meetings_never_unhandled nat sample_store_down 0%nat)
           (OtherError "OperationalError" "database is locked") 0%nat eq_refl).
Defined.

Lemma get_meetings_lists_in_order_witness :
  sample_store_ok 0%nat = (Return sample_meetings, 0%nat) /\
  forallb listable sample_meetings = true /\
  get_meetings sample_store_ok 0%nat
  = (Respond [[("id", Some "meeting-0"); ("title", Some "Kickoff")];
              [("id", Some "meeting-1"); ("title", Some "Retro")]], 0%nat).
Proof.
  split; [reflexivity|]. split; [reflexivity|].
  apply (get_meetings_lists_in_order nat sample_store_ok 0%nat 0%nat
           sample_meetings eq_refl eq_refl).
Defined.

Lemma get_meetings_fails_on_incomplete_record_witness :
  forallb listable
    [[("id", Some "meeting-0"); ("title", Some "Kickoff")];
     [("id", Some "meeting-1")]] = false /\
  (get_meetings sample_store_bad_row 0%nat = (HTTPException 500 "'id'", 0%nat) \/
   get_meetings sample_store_bad_row 0%nat = (HTTPException 500 "'title'", 0%nat)).
Proof.
  split; [reflexivity|].
  apply (get_meetings_fails_on_incomplete_record nat sample_store_bad_row
           0%nat 0%nat _ eq_refl eq_refl).
Defined.

(** ** The run on stores that fail *)

(** C6, counterexample. The backend is down and so is the store: the
    processing step raises, the reporting update raises in its turn, and
    that exception leaves the background task; the job's row is still
    [pending], its error field empty. *)
Lemma store_failure_leaves_the_run :
  let t := sample_request "hello" 5000 1000 in
  let w := snd (process_transcript_api t empty_world) in
  let w1 := log_backend (backend_call (text t) "ollama" "llama3" 5000 1000 None) w in
  process_transcript failing_processor (text t) (model t) (model_name t)
    (chunk_size t) (overlap t) (custom_prompt t) w
  = (Raise (OtherError "ConnectionError" "backend unreachable"), w1) /\
  process_transcript_background_on failing_processor sample_dumps store_down
    "meeting-1" t w
  = (Raise (OtherError "OperationalError" "database is locked"), w1) /\
  job_of "meeting-1" w1 = Some (pending_row "meeting-1").
Proof. repeat split. Qed.

(** The backend is down: on the store of the spec the exception is
    reported and the run returns; on a store that is down the exception of
    the reporting call is the one that leaves. *)
Lemma background_run_reports_exceptions_witness :
  let t := sample_request "hello" 5000 1000 in
  let w := snd (process_transcript_api t empty_world) in
  let w1 := log_backend (backend_call (text t) "ollama" "llama3" 5000 1000 None) w in
  let e := OtherError "ConnectionError" "backend unreachable" in
  process_transcript failing_processor (text t) (model t) (model_name t)
    (chunk_size t) (overlap t) (custom_prompt t) w
  = (Raise e, w1) /\
  process_transcript_background_on failing_processor sample_dumps update_process
    "meeting-1" t w
  = update_process "meeting-1" "failed" None (Some "backend unreachable") w1 /\
  (process_transcript_background_on failing_processor sample_dumps store_down
     "meeting-1" t w
   = (Raise (OtherError "OperationalError" "database is locked"), w1) /\
   exists e0 w0,
     store_down "meeting-1" "failed" None (Some (str e0)) w0
     = (Raise (OtherError "OperationalError" "database is locked"), w1)).
Proof.
  intros t w w1 e.
  split; [reflexivity|]. split.
  - apply (proj1 (background_run_reports_exceptions string failing_processor
                    sample_dumps update_process "meeting-1" t w) e w1
             (or_introl eq_refl)).
  - split; [reflexivity|].
    apply (proj2 (background_run_reports_exceptions string failing_processor
                    sample_dumps store_down "meeting-1" t w)
             (OtherError "OperationalError" "database is locked") w1 eq_refl).
Defined.

(** Chunk data arrives: a store that takes the update ends the run; a
    store that refuses the [completed] update gets the failure reported,
    and the job ends [failed]. *)
Lemma completed_update_then_fallback_witness :
  let t := sample_request "hello" 5000 1000 in
  let w := snd (process_transcript_api t empty_world) in
  let w1 := log_backend (backend_call (text t) "ollama" "llama3" 5000 1000 None) w in
  process_transcript one_chunk_processor (text t) (model t) (model_name t)
    (chunk_size t) (overlap t) (custom_prompt t) w
  = (Return (1, ["{summary}"]), w1) /\
  truthy ["{summary}"] = true /\
  sample_dumps ["{summary}"] = Return "[{summary}]" /\
  process_transcript_background_on one_chunk_processor sample_dumps update_process
    "meeting-1" t w
  = update_process "meeting-1" "completed" (Some "[{summary}]") None w1 /\
  store_refusing_completed "meeting-1" "completed" (Some "[{summary}]") None w1
  = (Raise (OtherError "OperationalError" "database is locked"), w1) /\
  job_of "meeting-1"
    (snd (process_transcript_background_on one_chunk_processor sample_dumps
            store_refusing_completed "meeting-1" t w))
  = Some {| row_meeting_id := "meeting-1"; row_status := "failed";
            row_error := Some "database is locked"; row_result := None |}.
Proof.
  intros t w w1.
  pose proof (completed_update_then_fallback string one_chunk_processor
                sample_dumps update_process "meeting-1" t w 1 ["{summary}"] w1
                "[{summary}]" eq_refl eq_refl eq_refl) as [Hreturns _].
  pose proof (completed_update_then_fallback string one_chunk_processor
                sample_dumps store_refusing_completed "meeting-1" t w 1
                ["{summary}"] w1 "[{summary}]" eq_refl eq_refl eq_refl)
    as [_ Hrefused].
  split; [reflexivity|]. split; [reflexivity|]. split; [reflexivity|]. split.
  - apply (Hreturns _ eq_refl).
  - split; [reflexivity|].
    rewrite (Hrefused (OtherError "OperationalError" "database is locked") w1
               eq_refl).
    reflexivity.
Defined.

